(** * PyBGP: the message codec and the per-peer state machine

    A shallow embedding of [bgp_message.py], [bgp_fsm.py] and
    [bgp_fsm_established.py].  Python integers are unbounded and are modelled
    by [Z]; a [bytes] object is a [list byte]; exceptions are explicit
    results. *)

From Stdlib Require Import String Ascii ZArith List Bool Lia.
From Stdlib Require Import Strings.Byte DecimalString Sorted.
From Equations Require Import Equations.
Import ListNotations.

Local Open Scope Z_scope.

(** ** Python values and exceptions *)

Inductive exn : Type :=
| IndexError
| StructError
| AttributeError
| AssertionError.

Inductive result (A : Type) : Type :=
| Ok (a : A)
| Raise (e : exn).
Arguments Ok {A} a.
Arguments Raise {A} e.

Definition bind {A B : Type} (r : result A) (k : A -> result B) : result B :=
  match r with
  | Ok a => k a
  | Raise e => Raise e
  end.

Notation "x <- r ;; k" := (bind r (fun x => k))
  (at level 61, r at next level, right associativity).

Definition or_raise {A : Type} (e : exn) (o : option A) : result A :=
  match o with
  | Some a => Ok a
  | None => Raise e
  end.

(** The integer an element of a [bytes] object reads as. *)
Definition byte_val (b : byte) : Z := Z.of_N (Byte.to_N b).

(** The byte of an integer in 0..255, if it is one. *)
Definition byte_of (z : Z) : option byte :=
  if z <? 0 then None else Byte.of_N (Z.to_N z).

(** [data[a:b]] and [data[a:]] for non-negative constant bounds: slicing never
    raises, it truncates. *)
Definition slice (a b : nat) (data : list byte) : list byte :=
  firstn (b - a) (skipn a data).

Definition slice_from (a : nat) (data : list byte) : list byte :=
  skipn a data.

(** [data[i]]: raises IndexError out of range. *)
Definition index (data : list byte) (i : nat) : result byte :=
  or_raise IndexError (nth_error data i).

(** The 16-bit big-endian integer at an offset of a buffer. *)
Definition be16_at (data : list byte) (off : nat) : Z :=
  256 * byte_val (nth off data x00) + byte_val (nth (S off) data x00).

(** ** The [struct] formats the codec uses (network byte order) *)

Definition pack_B (z : Z) : option (list byte) :=
  match byte_of z with
  | Some b => Some [b]
  | None => None
  end.

Definition pack_H (z : Z) : option (list byte) :=
  match byte_of (z / 256), byte_of (z mod 256) with
  | Some h, Some l => Some [h; l]
  | _, _ => None
  end.

Definition pack_L (z : Z) : option (list byte) :=
  match byte_of (z / 16777216), byte_of (z / 65536 mod 256),
        byte_of (z / 256 mod 256), byte_of (z mod 256) with
  | Some a, Some b, Some c, Some d => Some [a; b; c; d]
  | _, _, _, _ => None
  end.

(** [struct.unpack("!H", s)[0]]: struct.error unless [s] has two bytes. *)
Definition unpack_H (s : list byte) : result Z :=
  match s with
  | [h; l] => Ok (256 * byte_val h + byte_val l)
  | _ => Raise StructError
  end.

(** [struct.unpack("!L", s)[0]]. *)
Definition unpack_L (s : list byte) : result Z :=
  match s with
  | [a; b; c; d] =>
      Ok (16777216 * byte_val a + 65536 * byte_val b + 256 * byte_val c + byte_val d)
  | _ => Raise StructError
  end.

(** [struct.unpack("!4s", s)[0]]. *)
Definition unpack_4s (s : list byte) : result (list byte) :=
  match s with
  | [_; _; _; _] => Ok s
  | _ => Raise StructError
  end.

(** [struct.unpack("!BB", s)]. *)
Definition unpack_BB (s : list byte) : result (Z * Z) :=
  match s with
  | [a; b] => Ok (byte_val a, byte_val b)
  | _ => Raise StructError
  end.

(** [str(n)] for a byte. *)
Definition str_of_byte (b : byte) : string :=
  NilZero.string_of_uint (N.to_uint (Byte.to_N b)).

(** [socket.inet_ntoa] on a packed address of four bytes. *)
Definition inet_ntoa (packed : list byte) : result string :=
  match packed with
  | [a; b; c; d] =>
      Ok (str_of_byte a ++ "." ++ str_of_byte b ++ "." ++
          str_of_byte c ++ "." ++ str_of_byte d)%string
  | _ => Raise StructError
  end.

(** ** Constants of [bgp_message.py] *)

Definition OPEN : Z := 1.
Definition UPDATE : Z := 2.
Definition NOTIFICATION : Z := 3.
Definition KEEPALIVE : Z := 4.

Definition HEADER_SIZE : Z := 19.

Definition MESSAGE_HEADER_ERROR : Z := 1.
Definition OPEN_MESSAGE_ERROR : Z := 2.
Definition UPDATE_MESSAGE_ERROR : Z := 3.
Definition HOLD_TIMER_EXPIRED : Z := 4.
Definition FINITE_STATE_MACHINE_ERROR : Z := 5.
Definition CEASE : Z := 6.

Definition CONNECTION_NOT_SYNCHRONISED : Z := 1.
Definition BAD_MESSAGE_LENGTH : Z := 2.
Definition BAD_MESSAGE_TYPE : Z := 3.

Definition UNSUPPORTED_VERSION_NUMBER : Z := 1.
Definition BAD_PEER_AS : Z := 2.
Definition BAD_BGP_IDENTIFIER : Z := 3.
Definition UNSUPPORTED_OPTIONAL_PARAMETER : Z := 4.
Definition UNACCEPTABLE_HOLD_TIME : Z := 6.

Definition MALFORMED_ATTRIBUTE_LIST : Z := 1.

(** ** class IPv4Prefix *)

(** Python's [a and b] on integers: [a] when [a] is falsy (zero), else [b]. *)
Definition py_and (a b : Z) : Z := if a =? 0 then a else b.

Module IPv4Prefix.

Record t : Type := {
  len : Z;
  size : Z;
  bytes : list byte
}.

(** [(self.len >> 3) + ((self.len & 3) and 1)] *)
Definition size_of (l : Z) : Z := Z.shiftr l 3 + py_and (Z.land l 3) 1.

(** [__init__]: [raw_data[0]] raises IndexError on an empty buffer; the
    value bytes are the slice [raw_data[1 : 1 + size]], padded with
    [4 - size] zero bytes ([range] of a negative number is empty). *)
Definition init (raw_data : list byte) : result t :=
  l <- index raw_data 0 ;;
  let sz := size_of (byte_val l) in
  Ok {| len := byte_val l;
        size := sz;
        bytes := slice 1 (1 + Z.to_nat sz) raw_data
                   ++ repeat x00 (Z.to_nat (4 - sz)) |}.

(** The number of bytes of the buffer one prefix accounts for: the loops
    of the UPDATE decoder advance by [prefix.size + 1]. *)
Definition consumed (p : t) : Z := size p + 1.

End IPv4Prefix.

(** Keeps the equation of a scrutinee for the termination proof. *)
Definition inspect {A : Type} (x : A) : { y : A | x = y } := exist _ x eq_refl.

(** The loop
<<
   i = 0
   while i < len(raw):
       prefix = IPv4Prefix(raw[i:]); prefixes.append(prefix)
       i += prefix.size + 1
>>
    started at index [i]. *)
Equations? prefix_loop (raw : list byte) (i : nat) : result (list IPv4Prefix.t)
  by wf (length raw - i)%nat lt :=
  prefix_loop raw i with lt_dec i (length raw) => {
    | right _ => Ok [];
    | left _ with inspect (IPv4Prefix.init (slice_from i raw)) => {
        | exist _ (Raise e) _ => Raise e;
        | exist _ (Ok prefix) Hinit =>
            rest <- prefix_loop raw (i + Z.to_nat (IPv4Prefix.size prefix + 1)) ;;
            Ok (prefix :: rest) } }.
Proof.
  assert (0 <= IPv4Prefix.size prefix) as Hsize; [|lia].
  revert Hinit. unfold IPv4Prefix.init, bind.
  destruct (index (slice_from i raw) 0) as [l0|e0]; [|discriminate].
  intros Heq. inversion Heq; subst prefix. cbn [IPv4Prefix.size].
  unfold IPv4Prefix.size_of, py_and.
  assert (0 <= byte_val l0) by (unfold byte_val; lia).
  assert (0 <= Z.shiftr (byte_val l0) 3) by (apply Z.shiftr_nonneg; lia).
  destruct (Z.land (byte_val l0) 3 =? 0) eqn:E; [apply Z.eqb_eq in E|]; lia.
Qed.

(** A byte literal for concrete buffers. *)
Definition B (n : N) : byte :=
  match Byte.of_N n with
  | Some b => b
  | None => x00
  end.

(** ** class DecodeMessage *)

(** The attributes [__init__] sets on top of the six it always sets depend on
    the path taken: [length] and [type] exist once the marker is valid, the
    body attributes once the body of that type has been read. *)
Inductive Body : Type :=
| NoBody
| OpenBody (version asn hold_time : Z) (id : string) (opt_len : Z)
           (opt_param : list byte)
| UpdateBody (prefixes_del prefixes_add : list IPv4Prefix.t)
| NotificationBody (error_code error_subcode : Z) (error_data : list byte).

Record DecodeMessage : Type := {
  data_length_error : bool;
  data_length_expected : Z;
  data_length_received : Z;
  message_error_code : Z;
  message_error_subcode : Z;
  message_error_data : list byte;
  msg_length : option Z;   (* self.length *)
  msg_type : option Z;     (* self.type *)
  body : Body
}.

Definition set_data_length_error (expected : Z) (self : DecodeMessage) : DecodeMessage :=
  {| data_length_error := true;
     data_length_expected := expected;
     data_length_received := data_length_received self;
     message_error_code := message_error_code self;
     message_error_subcode := message_error_subcode self;
     message_error_data := message_error_data self;
     msg_length := msg_length self;
     msg_type := msg_type self;
     body := body self |}.

Definition set_error (code subcode : Z) (self : DecodeMessage) : DecodeMessage :=
  {| data_length_error := data_length_error self;
     data_length_expected := data_length_expected self;
     data_length_received := data_length_received self;
     message_error_code := code;
     message_error_subcode := subcode;
     message_error_data := message_error_data self;
     msg_length := msg_length self;
     msg_type := msg_type self;
     body := body self |}.

Definition set_error_data (d : list byte) (self : DecodeMessage) : DecodeMessage :=
  {| data_length_error := data_length_error self;
     data_length_expected := data_length_expected self;
     data_length_received := data_length_received self;
     message_error_code := message_error_code self;
     message_error_subcode := message_error_subcode self;
     message_error_data := d;
     msg_length := msg_length self;
     msg_type := msg_type self;
     body := body self |}.

Definition set_header (l t : Z) (self : DecodeMessage) : DecodeMessage :=
  {| data_length_error := data_length_error self;
     data_length_expected := data_length_expected self;
     data_length_received := data_length_received self;
     message_error_code := message_error_code self;
     message_error_subcode := message_error_subcode self;
     message_error_data := message_error_data self;
     msg_length := Some l;
     msg_type := Some t;
     body := body self |}.

Definition set_body (b : Body) (self : DecodeMessage) : DecodeMessage :=
  {| data_length_error := data_length_error self;
     data_length_expected := data_length_expected self;
     data_length_received := data_length_received self;
     message_error_code := message_error_code self;
     message_error_subcode := message_error_subcode self;
     message_error_data := message_error_data self;
     msg_length := msg_length self;
     msg_type := msg_type self;
     body := b |}.

(** The marker loop: some byte of [data[:16]] is not 0xFF. *)
Definition marker_bad (data : list byte) : bool :=
  existsb (fun m => negb (byte_val m =? 255)) (slice 0 16 data).

(** [x in {OPEN, UPDATE, NOTIFICATION, KEEPALIVE}] *)
Definition known_type (t : Z) : bool :=
  (t =? OPEN) || (t =? UPDATE) || (t =? NOTIFICATION) || (t =? KEEPALIVE).

(** The four checks of the OPEN branch, in the order of the source.  None of
    them returns: each failing check overwrites the code and subcode left by
    the ones before it. *)
Definition open_checks (version asn hold_time : Z) (id local_id : string)
    (peer_asn : Z) (self : DecodeMessage) : DecodeMessage :=
  let self := if negb (version =? 4)
              then set_error OPEN_MESSAGE_ERROR UNSUPPORTED_VERSION_NUMBER self
              else self in
  let self := if negb (asn =? peer_asn)
              then set_error OPEN_MESSAGE_ERROR BAD_PEER_AS self
              else self in
  let self := if String.eqb id local_id
              then set_error OPEN_MESSAGE_ERROR BAD_BGP_IDENTIFIER self
              else self in
  let self := if (hold_time =? 1) || (hold_time =? 2)
              then set_error OPEN_MESSAGE_ERROR UNACCEPTABLE_HOLD_TIME self
              else self in
  self.

(** The OPEN branch, entered with [len(data) >= length]. *)
Definition decode_open (data : list byte) (length : Z) (local_id : string)
    (peer_asn : Z) (self : DecodeMessage) : result DecodeMessage :=
  if length <? 19 + 10 then
    d <- or_raise StructError (pack_H length) ;;
    Ok (set_error_data d (set_error MESSAGE_HEADER_ERROR BAD_MESSAGE_LENGTH self))
  else
    version <- index data 19 ;;
    asn <- unpack_H (slice 20 22 data) ;;
    hold_time <- unpack_H (slice 23 25 data) ;;
    packed <- unpack_4s (slice 25 29 data) ;;
    id <- inet_ntoa packed ;;
    opt_len <- index data 29 ;;
    let opt_param := slice 29 (Z.to_nat length) data in
    let self := set_body (OpenBody (byte_val version) asn hold_time id
                                   (byte_val opt_len) opt_param) self in
    Ok (open_checks (byte_val version) asn hold_time id local_id peer_asn self).

(** The UPDATE branch. *)
Definition decode_update (data : list byte) (self : DecodeMessage)
    : result DecodeMessage :=
  prefixes_del_len <- unpack_H (slice 19 21 data) ;;
  let n := Z.to_nat prefixes_del_len in
  let prefixes_del_raw := slice 21 (21 + n) data in
  prefixes_del <- prefix_loop prefixes_del_raw 0 ;;
  atribute_len <- unpack_H (slice (21 + n) (21 + n + 2) data) ;;
  let a := Z.to_nat atribute_len in
  let atributes_raw := slice (21 + n + 2) (21 + n + 2 + a) data in
  let prefixes_add_raw := slice_from (21 + n + 2 + a) data in
  prefixes_add <- prefix_loop prefixes_add_raw 0 ;;
  Ok (set_body (UpdateBody prefixes_del prefixes_add) self).

(** The NOTIFICATION branch. *)
Definition decode_notification (data : list byte) (length : Z)
    (self : DecodeMessage) : result DecodeMessage :=
  if length <? 19 + 2 then
    d <- or_raise StructError (pack_H length) ;;
    Ok (set_error_data d (set_error 1 2 self))
  else
    codes <- unpack_BB (slice 19 21 data) ;;
    let error_data := slice 21 (Z.to_nat length) data in
    Ok (set_body (NotificationBody (fst codes) (snd codes) error_data) self).

(** [DecodeMessage.__init__(data, local_id, peer_asn)] *)
Definition DecodeMessage_init (data : list byte) (local_id : string)
    (peer_asn : Z) : result DecodeMessage :=
  let self := {| data_length_error := false;
                 data_length_expected := 19;
                 data_length_received := Z.of_nat (length data);
                 message_error_code := 0;
                 message_error_subcode := 0;
                 message_error_data := [];
                 msg_length := None;
                 msg_type := None;
                 body := NoBody |} in
  if Z.of_nat (length data) <? 19 then
    Ok (set_data_length_error 19 self)
  else if marker_bad data then
    Ok (set_error MESSAGE_HEADER_ERROR CONNECTION_NOT_SYNCHRONISED self)
  else
    len <- unpack_H (slice 16 18 data) ;;
    type <- index data 18 ;;
    let self := set_header len (byte_val type) self in
    if (len <? 19) || (4096 <? len) then
      d <- or_raise StructError (pack_H len) ;;
      Ok (set_error_data d (set_error MESSAGE_HEADER_ERROR BAD_MESSAGE_LENGTH self))
    else if negb (known_type (byte_val type)) then
      d <- or_raise StructError (pack_B (byte_val type)) ;;
      Ok (set_error_data d (set_error MESSAGE_HEADER_ERROR BAD_MESSAGE_TYPE self))
    else if Z.of_nat (length data) <? len then
      Ok (set_data_length_error len self)
    else if byte_val type =? OPEN then
      decode_open data len local_id peer_asn self
    else if byte_val type =? UPDATE then
      decode_update data self
    else if byte_val type =? NOTIFICATION then
      decode_notification data len self
    else
      Ok self.

(** ** The encoders *)

Definition marker : list byte := repeat xff 16.

Module Open.

Record t : Type := {
  len : Z;
  type : Z;
  version : Z;
  asn : Z;
  hold_time : Z;
  bgp_id : Z;
  opt_len : Z;
  opt : list byte
}.

(** [__init__].  [local_id] is given by the four octets that
    [socket.inet_aton] extracts from the dotted-quad text; [bgp_id] is the
    unsigned 32-bit integer [struct.unpack("!L", ...)] reads from them. *)
Definition init (local_id : byte * byte * byte * byte) (local_asn : Z)
    (local_hold_time : Z) (opt : list byte) (version : Z) : t :=
  let '(a, b, c, d) := local_id in
  {| len := 19 + 10 + Z.of_nat (length opt);
     type := OPEN;
     version := version;
     asn := local_asn;
     hold_time := local_hold_time;
     bgp_id := 16777216 * byte_val a + 65536 * byte_val b
               + 256 * byte_val c + byte_val d;
     opt_len := Z.of_nat (length opt);
     opt := opt |}.

(** [write]: [None] when [struct.pack] raises struct.error. *)
Definition write (self : t) : option (list byte) :=
  match pack_H (len self), pack_B (type self),
        pack_B (version self), pack_H (asn self), pack_H (hold_time self),
        pack_L (bgp_id self), pack_B (opt_len self) with
  | Some l, Some t, Some v, Some a, Some h, Some i, Some o =>
      Some (marker ++ (l ++ t) ++ (v ++ a ++ h ++ i ++ o) ++ opt self)
  | _, _, _, _, _, _, _ => None
  end.

End Open.

Module Notification.

Record t : Type := {
  len : Z;
  type : Z;
  error_code : Z;
  error_subcode : Z;
  data : list byte
}.

Definition init (error_code error_subcode : Z) (data : list byte) : t :=
  {| len := 19 + 2 + Z.of_nat (length data);
     type := NOTIFICATION;
     error_code := error_code;
     error_subcode := error_subcode;
     data := data |}.

Definition write (self : t) : option (list byte) :=
  match pack_H (len self), pack_B (type self),
        pack_B (error_code self), pack_B (error_subcode self) with
  | Some l, Some t, Some c, Some s =>
      Some (marker ++ (l ++ t) ++ (c ++ s) ++ data self)
  | _, _, _, _ => None
  end.

End Notification.

Module Keepalive.

(** [write] sets [self.len = 19] and [self.type = KEEPALIVE] and packs
    them. *)
Definition write : option (list byte) :=
  match pack_H 19, pack_B KEEPALIVE with
  | Some l, Some t => Some (marker ++ (l ++ t))
  | _, _ => None
  end.

End Keepalive.

(** Decoding what an encoder wrote; a [write] that raises struct.error has
    nothing to decode. *)
Definition decode_written (written : option (list byte)) (local_id : string)
    (peer_asn : Z) : result DecodeMessage :=
  match written with
  | Some data => DecodeMessage_init data local_id peer_asn
  | None => Raise StructError
  end.

(** Example buffers.  [open_wire] is the OPEN message with version 4,
    asn 65001, hold time 90, identifier 10.0.0.1 and two bytes of optional
    parameters, laid out as the protocol and [Open.write] lay it out. *)
Definition open_wire : list byte :=
  marker ++ [B 0; B 31; B 1]
         ++ [B 4; B 253; B 233; B 0; B 90; B 10; B 0; B 0; B 1; B 2]
         ++ [B 2; B 0].

(** The same message with version 3 and asn 65099. *)
Definition open_wire_v3_bad_asn : list byte :=
  marker ++ [B 0; B 31; B 1]
         ++ [B 3; B 254; B 75; B 0; B 90; B 10; B 0; B 0; B 1; B 2]
         ++ [B 2; B 0].

(** An UPDATE of Length 24: no withdrawn routes, no path attributes, and an
    NLRI made of the single length byte 32, whose four value bytes are
    missing. *)
Definition update_wire_overrun : list byte :=
  marker ++ [B 0; B 24; B 2] ++ [B 0; B 0] ++ [B 0; B 0] ++ [B 32].

(** ** class BgpFsm *)

(** An event object: its name and the serial number [enqueue_event] writes
    into it. *)
Record Event : Type := {
  name : string;
  serial_number : Z
}.

(** What has been handed to the transport for the peer. *)
Inductive OutMsg : Type :=
| OutOpen
| OutKeepalive
| OutNotification (error_code : Z)
| OutUpdate.

(** The constructor arguments, which no method assigns again. *)
Record Config : Type := {
  local_id : string;
  local_asn : Z;
  local_hold_time : Z;
  peer_ip : string;
  peer_asn : Z;
  mode : string
}.

(** The optional session attributes of RFC 4271, which the methods modelled
    here neither read nor write. *)
Record Options : Type := {
  accept_connections_unconfigured_peers : bool;
  allow_automatic_start : bool;
  allow_automatic_stop : bool;
  collision_detect_established_state : bool;
  damp_peer_oscillations : bool;
  delay_open : bool;
  delay_open_time : Z;
  delay_open_timer : Z;
  idle_hold_time : Z;
  idle_hold_timer : Z;
  passive_tcp_establishment : bool;
  send_notification_without_open : bool;
  track_tcp_state : bool
}.

(** The session object.  The stream handles, the logger and the task handles
    are not modelled; [sent] records the messages given to the transport. *)
Record BgpFsm : Type := {
  config : Config;
  options : Options;
  peer_port : Z;
  peer_id : option string;
  event_queue : list Event;
  event_serial_number : Z;
  tcp_connection_established : bool;
  state : string;
  connect_retry_counter : Z;
  connect_retry_timer : Z;
  connect_retry_time : Z;
  hold_timer : Z;
  hold_time : Z;
  keepalive_timer : Z;
  keepalive_time : Z;
  sent : list OutMsg
}.

Definition set_peer_port (v : Z) (self : BgpFsm) : BgpFsm :=
  {| config := config self;
     options := options self;
     peer_port := v;
     peer_id := peer_id self;
     event_queue := event_queue self;
     event_serial_number := event_serial_number self;
     tcp_connection_established := tcp_connection_established self;
     state := state self;
     connect_retry_counter := connect_retry_counter self;
     connect_retry_timer := connect_retry_timer self;
     connect_retry_time := connect_retry_time self;
     hold_timer := hold_timer self;
     hold_time := hold_time self;
     keepalive_timer := keepalive_timer self;
     keepalive_time := keepalive_time self;
     sent := sent self |}.

Definition set_event_queue (v : list Event) (self : BgpFsm) : BgpFsm :=
  {| config := config self;
     options := options self;
     peer_port := peer_port self;
     peer_id := peer_id self;
     event_queue := v;
     event_serial_number := event_serial_number self;
     tcp_connection_established := tcp_connection_established self;
     state := state self;
     connect_retry_counter := connect_retry_counter self;
     connect_retry_timer := connect_retry_timer self;
     connect_retry_time := connect_retry_time self;
     hold_timer := hold_timer self;
     hold_time := hold_time self;
     keepalive_timer := keepalive_timer self;
     keepalive_time := keepalive_time self;
     sent := sent self |}.

Definition set_event_serial_number (v : Z) (self : BgpFsm) : BgpFsm :=
  {| config := config self;
     options := options self;
     peer_port := peer_port self;
     peer_id := peer_id self;
     event_queue := event_queue self;
     event_serial_number := v;
     tcp_connection_established := tcp_connection_established self;
     state := state self;
     connect_retry_counter := connect_retry_counter self;
     connect_retry_timer := connect_retry_timer self;
     connect_retry_time := connect_retry_time self;
     hold_timer := hold_timer self;
     hold_time := hold_time self;
     keepalive_timer := keepalive_timer self;
     keepalive_time := keepalive_time self;
     sent := sent self |}.

Definition set_tcp_connection_established (v : bool) (self : BgpFsm) : BgpFsm :=
  {| config := config self;
     options := options self;
     peer_port := peer_port self;
     peer_id := peer_id self;
     event_queue := event_queue self;
     event_serial_number := event_serial_number self;
     tcp_connection_established := v;
     state := state self;
     connect_retry_counter := connect_retry_counter self;
     connect_retry_timer := connect_retry_timer self;
     connect_retry_time := connect_retry_time self;
     hold_timer := hold_timer self;
     hold_time := hold_time self;
     keepalive_timer := keepalive_timer self;
     keepalive_time := keepalive_time self;
     sent := sent self |}.

Definition set_state (v : string) (self : BgpFsm) : BgpFsm :=
  {| config := config self;
     options := options self;
     peer_port := peer_port self;
     peer_id := peer_id self;
     event_queue := event_queue self;
     event_serial_number := event_serial_number self;
     tcp_connection_established := tcp_connection_established self;
     state := v;
     connect_retry_counter := connect_retry_counter self;
     connect_retry_timer := connect_retry_timer self;
     connect_retry_time := connect_retry_time self;
     hold_timer := hold_timer self;
     hold_time := hold_time self;
     keepalive_timer := keepalive_timer self;
     keepalive_time := keepalive_time self;
     sent := sent self |}.

Definition set_connect_retry_counter (v : Z) (self : BgpFsm) : BgpFsm :=
  {| config := config self;
     options := options self;
     peer_port := peer_port self;
     peer_id := peer_id self;
     event_queue := event_queue self;
     event_serial_number := event_serial_number self;
     tcp_connection_established := tcp_connection_established self;
     state := state self;
     connect_retry_counter := v;
     connect_retry_timer := connect_retry_timer self;
     connect_retry_time := connect_retry_time self;
     hold_timer := hold_timer self;
     hold_time := hold_time self;
     keepalive_timer := keepalive_timer self;
     keepalive_time := keepalive_time self;
     sent := sent self |}.

Definition set_connect_retry_timer (v : Z) (self : BgpFsm) : BgpFsm :=
  {| config := config self;
     options := options self;
     peer_port := peer_port self;
     peer_id := peer_id self;
     event_queue := event_queue self;
     event_serial_number := event_serial_number self;
     tcp_connection_established := tcp_connection_established self;
     state := state self;
     connect_retry_counter := connect_retry_counter self;
     connect_retry_timer := v;
     connect_retry_time := connect_retry_time self;
     hold_timer := hold_timer self;
     hold_time := hold_time self;
     keepalive_timer := keepalive_timer self;
     keepalive_time := keepalive_time self;
     sent := sent self |}.

Definition set_hold_timer (v : Z) (self : BgpFsm) : BgpFsm :=
  {| config := config self;
     options := options self;
     peer_port := peer_port self;
     peer_id := peer_id self;
     event_queue := event_queue self;
     event_serial_number := event_serial_number self;
     tcp_connection_established := tcp_connection_established self;
     state := state self;
     connect_retry_counter := connect_retry_counter self;
     connect_retry_timer := connect_retry_timer self;
     connect_retry_time := connect_retry_time self;
     hold_timer := v;
     hold_time := hold_time self;
     keepalive_timer := keepalive_timer self;
     keepalive_time := keepalive_time self;
     sent := sent self |}.

Definition set_keepalive_timer (v : Z) (self : BgpFsm) : BgpFsm :=
  {| config := config self;
     options := options self;
     peer_port := peer_port self;
     peer_id := peer_id self;
     event_queue := event_queue self;
     event_serial_number := event_serial_number self;
     tcp_connection_established := tcp_connection_established self;
     state := state self;
     connect_retry_counter := connect_retry_counter self;
     connect_retry_timer := connect_retry_timer self;
     connect_retry_time := connect_retry_time self;
     hold_timer := hold_timer self;
     hold_time := hold_time self;
     keepalive_timer := v;
     keepalive_time := keepalive_time self;
     sent := sent self |}.

Definition set_sent (v : list OutMsg) (self : BgpFsm) : BgpFsm :=
  {| config := config self;
     options := options self;
     peer_port := peer_port self;
     peer_id := peer_id self;
     event_queue := event_queue self;
     event_serial_number := event_serial_number self;
     tcp_connection_established := tcp_connection_established self;
     state := state self;
     connect_retry_counter := connect_retry_counter self;
     connect_retry_timer := connect_retry_timer self;
     connect_retry_time := connect_retry_time self;
     hold_timer := hold_timer self;
     hold_time := hold_time self;
     keepalive_timer := keepalive_timer self;
     keepalive_time := keepalive_time self;
     sent := v |}.

(** [__init__] *)
Definition BgpFsm_init (local_id : string) (local_asn local_hold_time : Z)
    (peer_ip : string) (peer_asn : Z) (mode : string) : BgpFsm :=
  {| config := {| local_id := local_id; local_asn := local_asn;
                  local_hold_time := local_hold_time; peer_ip := peer_ip;
                  peer_asn := peer_asn; mode := mode |};
     options := {| accept_connections_unconfigured_peers := false;
                   allow_automatic_start := true;
                   allow_automatic_stop := true;
                   collision_detect_established_state := false;
                   damp_peer_oscillations := false;
                   delay_open := false;
                   delay_open_time := 0;
                   delay_open_timer := 0;
                   idle_hold_time := 0;
                   idle_hold_timer := 0;
                   passive_tcp_establishment := false;
                   send_notification_without_open := false;
                   track_tcp_state := false |};
     peer_port := 0;
     peer_id := None;
     event_queue := [];
     event_serial_number := 0;
     tcp_connection_established := false;
     state := "Idle";
     connect_retry_counter := 0;
     connect_retry_timer := 0;
     connect_retry_time := 5;
     hold_timer := 0;
     hold_time := 0;
     keepalive_timer := 0;
     keepalive_time := 0;
     sent := [] |}.

(** *** Methods: a state monad with exceptions

    A method runs on the session object and either completes or raises; the
    object keeps the mutations made before the exception. *)

Inductive outcome (A : Type) : Type :=
| Done (a : A) (self : BgpFsm)
| Raised (e : exn) (self : BgpFsm).
Arguments Done {A} a self.
Arguments Raised {A} e self.

Definition M (A : Type) : Type := BgpFsm -> outcome A.

Definition ret {A : Type} (a : A) : M A := fun self => Done a self.

Definition raise {A : Type} (e : exn) : M A := fun self => Raised e self.

Definition mbind {A B : Type} (m : M A) (k : A -> M B) : M B :=
  fun self =>
    match m self with
    | Done a self' => k a self'
    | Raised e self' => Raised e self'
    end.

Definition get {A : Type} (f : BgpFsm -> A) : M A := fun self => Done (f self) self.

Definition modify (f : BgpFsm -> BgpFsm) : M unit := fun self => Done tt (f self).

Declare Scope fsm_scope.
Delimit Scope fsm_scope with fsm.
Notation "m1 ;; m2" := (mbind m1 (fun _ => m2))
  (at level 62, right associativity) : fsm_scope.
Notation "x <-- m1 ;; m2" := (mbind m1 (fun x => m2))
  (at level 62, m1 at next level, right associativity) : fsm_scope.

(** [if c: body] *)
Definition when (c : bool) (body : M unit) : M unit :=
  if c then body else ret tt.

(** The names the class body of [BgpFsm] binds: the imported handlers, timer
    loops and transport functions, and its own methods.  Looking up any other
    method name on the object raises AttributeError. *)
Definition BgpFsm_methods : list string :=
  [ "fsm_active"; "fsm_connect"; "fsm_established"; "fsm_idle";
    "fsm_openconfirm"; "fsm_opensent";
    "decrease_connect_retry_timer"; "decrease_hold_timer";
    "decrease_keepalive_timer";
    "close_connection"; "message_input_loop"; "open_connection";
    "send_keepalive_message"; "send_notification_message";
    "send_open_message"; "send_update_message";
    "enqueue_event"; "dequeue_event"; "change_state"; "fsm" ]%string.

Definition has_method (attr : string) : bool :=
  existsb (String.eqb attr) BgpFsm_methods.

(** Modelled from the spec: [network_io.send_notification_message] is not
    among the sources.  The transport adapter "accepts outbound message
    bytes"; awaiting the call sends a NOTIFICATION with the given error code
    to the peer. *)
Definition send_notification_message (error_code : Z) : M unit :=
  modify (fun self => set_sent (sent self ++ [OutNotification error_code]) self).

(** Modelled from the spec: [network_io.send_keepalive_message] is not among
    the sources; awaiting it sends a KEEPALIVE to the peer. *)
Definition send_keepalive_message : M unit :=
  modify (fun self => set_sent (sent self ++ [OutKeepalive]) self).

(** Modelled from the spec: [network_io.close_connection] is not among the
    sources.  "close(): idempotent; closes any live connection; safe in all
    states including Idle": afterwards no TCP connection is established. *)
Definition close_connection : M unit :=
  modify (set_tcp_connection_established false).

(** [x in {...}] on strings *)
Definition str_in (x : string) (l : list string) : bool :=
  existsb (String.eqb x) l.

(** [enqueue_event].  At the wrap the source assigns 1 to a local variable
    [event_serial_number], which nothing reads. *)
Definition enqueue_event (event : Event) (self : BgpFsm) : BgpFsm :=
  let self := set_event_serial_number (event_serial_number self + 1) self in
  let event_serial_number_local : option Z :=
    if 65535 <? event_serial_number self then Some 1 else None in
  let event := {| name := name event;
                  serial_number := event_serial_number self |} in
  let self :=
    if str_in (name event) ["Event 2: ManualStop"; "Event 8: AutomaticStop"]%string
    then set_event_queue [] self
    else self in
  set_event_queue (event_queue self ++ [event]) self.

(** [dequeue_event]: [pop(0)] raises IndexError on an empty queue. *)
Definition dequeue_event : M Event :=
  fun self =>
    match event_queue self with
    | [] => Raised IndexError self
    | event :: rest => Done event (set_event_queue rest self)
    end.

(** [change_state] *)
Definition change_state (st : string) : M unit :=
  ((if str_in st ["Idle"; "Connect"; "Active"; "OpenSent"; "OpenConfirm";
                 "Established"]%string
    then ret tt else raise AssertionError) ;;
   modify (set_state st) ;;
   cur <-- get state ;;
   when (String.eqb cur "Idle")
     (modify (set_connect_retry_timer 0) ;;
      modify (set_keepalive_timer 0) ;;
      modify (set_hold_timer 0) ;;
      modify (set_peer_port 0) ;;
      close_connection))%fsm.

(** *** bgp_fsm_established.fsm_established

    A sequence of independent [if] statements on [event.name].  The last
    block looks up [self.send_notificaion_message], a name the class does not
    bind; had the name been bound, the call is not awaited, so it would only
    build a coroutine object and send nothing. *)
Definition fsm_established (event : Event) : M unit :=
  (when (String.eqb (name event) "Event 2: ManualStop")
     (send_notification_message CEASE ;;
      modify (set_connect_retry_counter 0) ;;
      change_state "Idle") ;;
   when (String.eqb (name event) "Event 8: AutomaticStop")
     (send_notification_message CEASE ;;
      modify (fun self => set_connect_retry_counter (connect_retry_counter self + 1) self) ;;
      change_state "Idle") ;;
   when (String.eqb (name event) "Event 10: HoldTimer_Expires")
     (send_notification_message HOLD_TIMER_EXPIRED ;;
      modify (fun self => set_connect_retry_counter (connect_retry_counter self + 1) self) ;;
      change_state "Idle") ;;
   when (String.eqb (name event) "Event 11: KeepaliveTimer_Expires")
     (send_keepalive_message ;;
      modify (fun self => set_keepalive_timer (keepalive_time self) self)) ;;
   when (str_in (name event)
           ["Event 18: TcpConnectionFails"; "Event 24: NotifMsgVerErr";
            "Event 25: NotifMsg"]%string)
     (modify (fun self => set_connect_retry_counter (connect_retry_counter self + 1) self) ;;
      change_state "Idle") ;;
   when (String.eqb (name event) "Event 26: KeepAliveMsg")
     (modify (fun self => set_hold_timer (hold_time self) self)) ;;
   when (String.eqb (name event) "Event 27: UpdateMsg")
     (modify (fun self => set_hold_timer (hold_time self) self)) ;;
   when (String.eqb (name event) "Event 28: UpdateMsgErr")
     (modify (fun self => set_connect_retry_counter (connect_retry_counter self + 1) self) ;;
      change_state "Idle") ;;
   when (str_in (name event)
           ["Event 9: ConnectRetryTimer_Expires";
            "Event 12: DelayOpenTimer_Expires";
            "Event 13: IdleHoldTimer_Expires";
            "Event 20: BGPOpen with DelayOpenTimer running";
            "Event 21: BGPHeaderErr";
            "Event 22: BGPOpenMsgErr"]%string)
     ((if has_method "send_notificaion_message"
       then ret tt else raise AttributeError) ;;
      modify (fun self => set_connect_retry_counter (connect_retry_counter self + 1) self) ;;
      change_state "Idle"))%fsm.

(** The events of the last block of [fsm_established]. *)
Definition fsm_error_events : list string :=
  [ "Event 9: ConnectRetryTimer_Expires";
    "Event 12: DelayOpenTimer_Expires";
    "Event 13: IdleHoldTimer_Expires";
    "Event 20: BGPOpen with DelayOpenTimer running";
    "Event 21: BGPHeaderErr";
    "Event 22: BGPOpenMsgErr" ]%string.

(** *** BgpFsm.fsm: one turn of the loop

    The handlers of the other five states live in modules that are not among
    the sources; the loop is modelled over any such handlers.  Each
    dispatch function also returns the states whose handler it awaited, in
    order. *)
Section Dispatch.

Variables fsm_idle fsm_connect fsm_active fsm_opensent fsm_openconfirm
  : Event -> M unit.

(** [if self.state == st: await handler(event)] *)
Definition dispatch_if (st : string) (handler : Event -> M unit)
    (event : Event) (ran : list string) : M (list string) :=
  (cur <-- get state ;;
   if String.eqb cur st
   then handler event ;; ret (ran ++ [st])
   else ret ran)%fsm.

(** The six [if] statements of the loop body, one after the other. *)
Definition fsm_dispatch (event : Event) : M (list string) :=
  (ran <-- dispatch_if "Idle" fsm_idle event [] ;;
   ran <-- dispatch_if "Connect" fsm_connect event ran ;;
   ran <-- dispatch_if "Active" fsm_active event ran ;;
   ran <-- dispatch_if "OpenSent" fsm_opensent event ran ;;
   ran <-- dispatch_if "OpenConfirm" fsm_openconfirm event ran ;;
   dispatch_if "Established" fsm_established event ran)%fsm.

(** One turn of [while True]: [if self.event_queue:] dequeue and
    dispatch (the sleep is not modelled). *)
Definition fsm_turn : M (list string) :=
  (queue <-- get event_queue ;;
   match queue with
   | [] => ret []
   | _ :: _ => event <-- dequeue_event ;; fsm_dispatch event
   end)%fsm.

(** The dispatch as the specification words it: a single dispatch keyed on
    the state current when the event is dequeued. *)
Definition fsm_dispatch_single (event : Event) : M (list string) :=
  (cur <-- get state ;;
   if String.eqb cur "Idle" then fsm_idle event ;; ret ["Idle"%string]
   else if String.eqb cur "Connect" then fsm_connect event ;; ret ["Connect"%string]
   else if String.eqb cur "Active" then fsm_active event ;; ret ["Active"%string]
   else if String.eqb cur "OpenSent" then fsm_opensent event ;; ret ["OpenSent"%string]
   else if String.eqb cur "OpenConfirm" then fsm_openconfirm event ;; ret ["OpenConfirm"%string]
   else if String.eqb cur "Established" then fsm_established event ;; ret ["Established"%string]
   else ret [])%fsm.

End Dispatch.

(** Modelled from the spec: [bgp_fsm_openconfirm.fsm_openconfirm] is not
    among the sources.  The transition table gives, for OpenConfirm,
    "KeepAliveMsg(26): restart hold_timer; to Established" and
    "KeepaliveTimer_Expires(11): send KEEPALIVE; keepalive_timer <-
    keepalive_time; to OpenConfirm"; the rows that tear the session down to
    Idle are not needed here and are left out. *)
Definition fsm_openconfirm_spec (event : Event) : M unit :=
  (when (String.eqb (name event) "Event 26: KeepAliveMsg")
     (modify (fun self => set_hold_timer (hold_time self) self) ;;
      change_state "Established") ;;
   when (String.eqb (name event) "Event 11: KeepaliveTimer_Expires")
     (send_keepalive_message ;;
      modify (fun self => set_keepalive_timer (keepalive_time self) self)))%fsm.

(** The session of the handshake scenario once Established: negotiated hold
    time 60, keepalive time 20, a live connection to port 179. *)
Definition established_session : BgpFsm :=
  let init := BgpFsm_init "1.1.1.1" 65001 90 "2.2.2.2" 65002 "Active" in
  {| config := config init;
     options := options init;
     peer_port := 179;
     peer_id := Some "2.2.2.2"%string;
     event_queue := [];
     event_serial_number := 7;
     tcp_connection_established := true;
     state := "Established";
     connect_retry_counter := 0;
     connect_retry_timer := 0;
     connect_retry_time := 5;
     hold_timer := 12;
     hold_time := 60;
     keepalive_timer := 9;
     keepalive_time := 20;
     sent := [OutOpen; OutKeepalive] |}.

(** The six attributes [DecodeMessage.__init__] sets before it looks at the
    buffer, for a buffer of [received] bytes. *)
Definition fresh_message (received : Z) : DecodeMessage :=
  {| data_length_error := false;
     data_length_expected := 19;
     data_length_received := received;
     message_error_code := 0;
     message_error_subcode := 0;
     message_error_data := [];
     msg_length := None;
     msg_type := None;
     body := NoBody |}.

(** More example buffers: a KEEPALIVE header announcing 23 bytes, followed
    by four bytes; the first 22 bytes of [open_wire]; a NOTIFICATION (6, 2)
    with one data byte followed by a stray byte; an OPEN header of Length
    25; an UPDATE header of Length 19. *)
Definition keepalive_wire_23 : list byte :=
  marker ++ [B 0; B 23; B 4] ++ [B 1; B 2; B 3; B 4].

Definition open_wire_cut : list byte := firstn 22 open_wire.

Definition notification_wire : list byte :=
  marker ++ [B 0; B 22; B 3] ++ [B 6; B 2; B 7] ++ [B 9].

Definition open_wire_25 : list byte :=
  marker ++ [B 0; B 25; B 1] ++ [B 4; B 253; B 233; B 0; B 90; B 10].

Definition update_wire_19 : list byte := marker ++ [B 0; B 19; B 2].

(** An UPDATE of Length 23, with no withdrawn routes and no path attributes,
    followed in the buffer by the two bytes of the prefix 10.0.0.0/8. *)
Definition update_wire_trailing : list byte :=
  marker ++ [B 0; B 23; B 2] ++ [B 0; B 0] ++ [B 0; B 0] ++ [B 8; B 10].

(** *** The queue and the event objects it refers to

    [enqueue_event] writes the serial number into the event object it is
    given and appends that very object to the queue.  [enqueue_event] above
    shows the queue by value, which is the same thing as long as the object
    is not already in the queue; the model below keeps the objects apart
    from the references to them, for the properties that depend on the
    difference.  It holds the part of the session the two queue methods
    touch: the event objects by identity, the queue of references, and the
    serial counter. *)
Module Aliased.

Record t : Type := {
  objects : nat -> Event;
  event_queue : list nat;
  event_serial_number : Z
}.

(** A new session: an empty queue and the counter at 0. *)
Definition init (objects : nat -> Event) : t :=
  {| objects := objects; event_queue := []; event_serial_number := 0 |}.

(** [enqueue_event(event)], [event] being a reference. *)
Definition enqueue_event (event : nat) (self : t) : t :=
  let serial := event_serial_number self + 1 in
  let event_serial_number_local : option Z :=
    if 65535 <? serial then Some 1 else None in
  let objects' :=
    fun ref =>
      if Nat.eqb ref event
      then {| name := name (objects self event); serial_number := serial |}
      else objects self ref in
  let queue :=
    if str_in (name (objects' event))
              ["Event 2: ManualStop"; "Event 8: AutomaticStop"]%string
    then []
    else event_queue self in
  {| objects := objects';
     event_queue := queue ++ [event];
     event_serial_number := serial |}.

(** [dequeue_event()]: [None] for the IndexError of [pop(0)] on an empty
    queue. *)
Definition dequeue_event (self : t) : option (nat * t) :=
  match event_queue self with
  | [] => None
  | event :: rest =>
      Some (event, {| objects := objects self;
                      event_queue := rest;
                      event_serial_number := event_serial_number self |})
  end.

(** The events in the queue, read through the references. *)
Definition queued (self : t) : list Event :=
  map (objects self) (event_queue self).

(** Calls of the two methods, and a run of such calls; a [dequeue_event]
    that raises leaves everything as it was. *)
Inductive op : Type :=
| Enqueue (event : nat)
| Dequeue.

Definition run_op (self : t) (o : op) : t :=
  match o with
  | Enqueue event => enqueue_event event self
  | Dequeue =>
      match dequeue_event self with
      | Some (_, self') => self'
      | None => self
      end
  end.

Definition run (ops : list op) (self : t) : t := fold_left run_op ops self.

Definition enqueue_count (ops : list op) : nat :=
  length (filter (fun o => match o with Enqueue _ => true | Dequeue => false end)
                 ops).

(** No call of the run enqueues an object that is in the queue at that
    time. *)
Fixpoint fresh (ops : list op) (self : t) : Prop :=
  match ops with
  | [] => True
  | o :: rest =>
      match o with
      | Enqueue event => ~ In event (event_queue self)
      | Dequeue => True
      end
      /\ fresh rest (run_op self o)
  end.

End Aliased.

(** [lo < x1 < x2 < ... < xn <= hi] *)
Fixpoint chain_below (lo : Z) (l : list Z) (hi : Z) : Prop :=
  match l with
  | [] => lo <= hi
  | x :: rest => lo < x /\ chain_below x rest hi
  end.

(** What the block under [if self.state == "Idle"] of [change_state] does
    to a session whose state has just been set to Idle. *)
Definition idle_reset (self : BgpFsm) : BgpFsm :=
  set_tcp_connection_established false
    (set_peer_port 0
       (set_hold_timer 0
          (set_keepalive_timer 0
             (set_connect_retry_timer 0 (set_state "Idle" self))))).

(** The event names [fsm_established] tests for. *)
Definition fsm_established_events : list string :=
  [ "Event 2: ManualStop"; "Event 8: AutomaticStop";
    "Event 10: HoldTimer_Expires"; "Event 11: KeepaliveTimer_Expires";
    "Event 18: TcpConnectionFails"; "Event 24: NotifMsgVerErr";
    "Event 25: NotifMsg"; "Event 26: KeepAliveMsg"; "Event 27: UpdateMsg";
    "Event 28: UpdateMsgErr";
    "Event 9: ConnectRetryTimer_Expires";
    "Event 12: DelayOpenTimer_Expires";
    "Event 13: IdleHoldTimer_Expires";
    "Event 20: BGPOpen with DelayOpenTimer running";
    "Event 21: BGPHeaderErr";
    "Event 22: BGPOpenMsgErr" ]%string.

(** The blocks of [fsm_established] that end in [change_state("Idle")]: the
    event, what is sent first, and what becomes of the connect retry
    counter. *)
Definition established_teardown_rows : list (string * list OutMsg * (Z -> Z)) :=
  [ ("Event 2: ManualStop", [OutNotification CEASE], fun _ => 0);
    ("Event 8: AutomaticStop", [OutNotification CEASE], fun c => c + 1);
    ("Event 10: HoldTimer_Expires", [OutNotification HOLD_TIMER_EXPIRED],
     fun c => c + 1);
    ("Event 18: TcpConnectionFails", [], fun c => c + 1);
    ("Event 24: NotifMsgVerErr", [], fun c => c + 1);
    ("Event 25: NotifMsg", [], fun c => c + 1);
    ("Event 28: UpdateMsgErr", [], fun c => c + 1) ]%string.

(** The states in the order in which the loop of [fsm] tests them, and the
    states tested after a given one. *)
Definition fsm_states : list string :=
  [ "Idle"; "Connect"; "Active"; "OpenSent"; "OpenConfirm"; "Established" ]%string.

Fixpoint states_after (st : string) (l : list string) : list string :=
  match l with
  | [] => []
  | x :: rest => if String.eqb x st then rest else states_after st rest
  end.

Definition later_states (st : string) : list string :=
  states_after st fsm_states.

(** * Properties *)

(** ** IPv4Prefix *)

(** The source formula against the number of bytes a prefix of [l] bits
    needs: they agree except when [l] is 4 modulo 8. *)
Lemma size_of_vs_ceil (b : byte) :
  IPv4Prefix.size_of (byte_val b) = (byte_val b + 7) / 8 <-> byte_val b mod 8 <> 4.
Proof.
  destruct b; vm_compute; split; congruence.
Qed.

(** C4 (the code departs from the claim).  A prefix of length 4 needs one
    value byte, [ceil(4/8) = 1], and so two bytes of the buffer; the source
    computes [size = (4 >> 3) + ((4 & 3) and 1) = 0], takes no value byte and
    advances by one byte only, so that the loop reads the value byte 160 as
    the length of a next prefix. *)
Theorem prefix_length_4_consumes_one_byte :
  IPv4Prefix.init [B 4; B 160]
    = Ok {| IPv4Prefix.len := 4; IPv4Prefix.size := 0;
            IPv4Prefix.bytes := [x00; x00; x00; x00] |}
  /\ IPv4Prefix.size_of 4 = 0
  /\ (4 + 7) / 8 = 1
  /\ (exists p, IPv4Prefix.init [B 4; B 160] = Ok p /\ IPv4Prefix.consumed p = 1)
  /\ (exists p q, prefix_loop [B 4; B 160] 0 = Ok [p; q]
                  /\ IPv4Prefix.len p = 4 /\ IPv4Prefix.len q = 160).
Proof.
  repeat split; try reflexivity.
  - eexists; split; reflexivity.
  - exists {| IPv4Prefix.len := 4; IPv4Prefix.size := 0;
              IPv4Prefix.bytes := [x00; x00; x00; x00] |}.
    exists {| IPv4Prefix.len := 160; IPv4Prefix.size := 20;
              IPv4Prefix.bytes := [] |}.
    repeat split.
Qed.

(** ** The codec: bytes and [struct] *)

Lemma byte_val_range (b : byte) : 0 <= byte_val b <= 255.
Proof.
  unfold byte_val. pose proof (Byte.to_N_bounded b). lia.
Qed.

Lemma byte_of_some (z : Z) :
  0 <= z < 256 -> exists b, byte_of z = Some b /\ byte_val b = z.
Proof.
  intros Hz. unfold byte_of.
  destruct (Z.ltb_spec z 0) as [Hneg|_]; [lia|].
  destruct (Byte.of_N (Z.to_N z)) as [b|] eqn:E.
  - exists b. split; [reflexivity|].
    apply Byte.to_of_N in E. unfold byte_val. rewrite E. lia.
  - apply Byte.of_N_None_iff in E. lia.
Qed.

Lemma byte_of_val (b : byte) : byte_of (byte_val b) = Some b.
Proof.
  unfold byte_of. pose proof (byte_val_range b).
  destruct (Z.ltb_spec (byte_val b) 0); [lia|].
  unfold byte_val. rewrite N2Z.id. apply Byte.of_to_N.
Qed.

Lemma pack_B_some (z : Z) :
  0 <= z < 256 -> exists b, pack_B z = Some [b] /\ byte_val b = z.
Proof.
  intros Hz. destruct (byte_of_some z Hz) as [b [E V]].
  exists b. unfold pack_B. rewrite E. auto.
Qed.

Lemma pack_H_some (z : Z) :
  0 <= z < 65536 ->
  exists h l, pack_H z = Some [h; l] /\ 256 * byte_val h + byte_val l = z.
Proof.
  intros Hz.
  destruct (byte_of_some (z / 256)) as [h [Eh Vh]].
  { split; [apply Z.div_pos; lia | apply Z.div_lt_upper_bound; lia]. }
  destruct (byte_of_some (z mod 256)) as [l [El Vl]].
  { apply Z.mod_pos_bound; lia. }
  exists h, l. unfold pack_H. rewrite Eh, El. split; [reflexivity|].
  rewrite Vh, Vl. pose proof (Z.div_mod z 256). lia.
Qed.

Lemma pack_L_some (z : Z) :
  0 <= z < 4294967296 ->
  exists a b c d, pack_L z = Some [a; b; c; d].
Proof.
  intros Hz.
  destruct (byte_of_some (z / 16777216)) as [a [Ea _]].
  { split; [apply Z.div_pos; lia | apply Z.div_lt_upper_bound; lia]. }
  destruct (byte_of_some (z / 65536 mod 256)) as [b [Eb _]].
  { apply Z.mod_pos_bound; lia. }
  destruct (byte_of_some (z / 256 mod 256)) as [c [Ec _]].
  { apply Z.mod_pos_bound; lia. }
  destruct (byte_of_some (z mod 256)) as [d [Ed _]].
  { apply Z.mod_pos_bound; lia. }
  exists a, b, c, d. unfold pack_L. rewrite Ea, Eb, Ec, Ed. reflexivity.
Qed.

(** [pack_H] after [unpack_H]: the error data of a bad Length are the two
    bytes of the Length field. *)
Lemma pack_H_be16 (h l : byte) :
  pack_H (256 * byte_val h + byte_val l) = Some [h; l].
Proof.
  pose proof (byte_val_range h). pose proof (byte_val_range l).
  unfold pack_H.
  replace ((256 * byte_val h + byte_val l) / 256) with (byte_val h)
    by (apply Z.div_unique with (r := byte_val l); lia).
  replace ((256 * byte_val h + byte_val l) mod 256) with (byte_val l)
    by (apply Z.mod_unique with (q := byte_val h); lia).
  rewrite !byte_of_val. reflexivity.
Qed.

(** Slices inside the buffer, element by element. *)
Lemma skipn_cons_nth (data : list byte) (a : nat) :
  (a < length data)%nat -> skipn a data = nth a data x00 :: skipn (S a) data.
Proof.
  revert a. induction data as [|x data IH]; intros a Ha; cbn in Ha; [lia|].
  destruct a as [|a]; [reflexivity|].
  cbn [skipn nth]. apply IH. lia.
Qed.

Lemma firstn_skipn_seq (data : list byte) (n a : nat) :
  (a + n <= length data)%nat ->
  firstn n (skipn a data) = map (fun i => nth i data x00) (seq a n).
Proof.
  revert a. induction n as [|n IH]; intros a Ha; [reflexivity|].
  rewrite skipn_cons_nth by lia. cbn [firstn seq map]. f_equal.
  apply IH. lia.
Qed.

Lemma slice_seq (data : list byte) (a b : nat) :
  (a <= b <= length data)%nat ->
  slice a b data = map (fun i => nth i data x00) (seq a (b - a)).
Proof.
  intros H. unfold slice. apply firstn_skipn_seq. lia.
Qed.

Lemma index_nth (data : list byte) (i : nat) :
  (i < length data)%nat -> index data i = Ok (nth i data x00).
Proof.
  intros H. unfold index.
  rewrite (nth_error_nth' data x00 H). reflexivity.
Qed.

Lemma unpack_H_slice (data : list byte) (a : nat) :
  (a + 2 <= length data)%nat ->
  unpack_H (slice a (a + 2) data) = Ok (be16_at data a).
Proof.
  intros H. rewrite slice_seq by lia.
  replace (a + 2 - a)%nat with 2%nat by lia. reflexivity.
Qed.

(** The marker loop finds a byte other than 0xFF exactly when one of the
    first sixteen bytes is. *)
Lemma marker_bad_true (data : list byte) :
  (16 <= length data)%nat ->
  (exists i, (i < 16)%nat /\ byte_val (nth i data x00) <> 255) ->
  marker_bad data = true.
Proof.
  intros Hlen [i [Hi Hb]]. unfold marker_bad.
  rewrite slice_seq by lia. apply existsb_exists.
  exists (nth i data x00). split.
  - apply in_map_iff. exists i. split; [reflexivity|].
    apply in_seq. lia.
  - apply negb_true_iff. apply Z.eqb_neq. exact Hb.
Qed.

Lemma marker_bad_false (data : list byte) :
  (16 <= length data)%nat ->
  (forall i, (i < 16)%nat -> byte_val (nth i data x00) = 255) ->
  marker_bad data = false.
Proof.
  intros Hlen Hall. unfold marker_bad.
  rewrite slice_seq by lia.
  destruct (existsb _ _) eqn:E; [|reflexivity].
  apply existsb_exists in E. destruct E as [b [Hin Hb]].
  apply in_map_iff in Hin. destruct Hin as [i [Hi Hseq]].
  apply in_seq in Hseq. subst b.
  rewrite (Hall i) in Hb by lia. discriminate.
Qed.

(** The header of a buffer of at least 19 bytes with a valid marker is read
    from bytes 16..18. *)
Lemma header_steps (data : list byte) :
  (19 <= length data)%nat ->
  (Z.of_nat (length data) <? 19) = false
  /\ unpack_H (slice 16 18 data) = Ok (be16_at data 16)
  /\ index data 18 = Ok (nth 18 data x00).
Proof.
  intros H. repeat split.
  - apply Z.ltb_ge. lia.
  - apply (unpack_H_slice data 16). lia.
  - apply index_nth. lia.
Qed.

(** The loops over prefixes never raise. *)
Lemma prefix_loop_ok (raw : list byte) (i : nat) :
  exists prefixes, prefix_loop raw i = Ok prefixes.
Proof.
  funelim (prefix_loop raw i).
  - exists []. reflexivity.
  - match goal with
    | IH : exists _, prefix_loop _ _ = Ok _ |- _ =>
        destruct IH as [rest Hrest];
        exists (prefix :: rest); rewrite Hrest; reflexivity
    end.
  - exfalso.
    match goal with
    | H : IPv4Prefix.init _ = Raise _ |- _ =>
        generalize H; unfold IPv4Prefix.init, index, slice_from;
        rewrite skipn_cons_nth by assumption; discriminate
    end.
Qed.

(** ** The codec: round trips *)

(** The OPEN checks only write the error code and subcode. *)
Lemma open_checks_frame (version asn hold_time : Z) (id local_id : string)
    (peer_asn : Z) (self : DecodeMessage) :
  let self' := open_checks version asn hold_time id local_id peer_asn self in
  body self' = body self
  /\ msg_type self' = msg_type self
  /\ msg_length self' = msg_length self
  /\ message_error_data self' = message_error_data self.
Proof.
  unfold open_checks.
  destruct (negb (version =? 4)), (negb (asn =? peer_asn)),
    (String.eqb id local_id), ((hold_time =? 1) || (hold_time =? 2));
    cbn; repeat split.
Qed.

(** Decoding a well-sized NOTIFICATION buffer. *)
Lemma decode_notification_buffer (lh ll c s : byte) (d : list byte)
    (local_id : string) (peer_asn : Z) :
  256 * byte_val lh + byte_val ll = 21 + Z.of_nat (length d) ->
  (length d <= 4075)%nat ->
  DecodeMessage_init (marker ++ ([lh; ll] ++ [B 3]) ++ ([c] ++ [s]) ++ d)
                     local_id peer_asn
  = Ok {| data_length_error := false;
          data_length_expected := 19;
          data_length_received := 21 + Z.of_nat (length d);
          message_error_code := 0;
          message_error_subcode := 0;
          message_error_data := [];
          msg_length := Some (21 + Z.of_nat (length d));
          msg_type := Some NOTIFICATION;
          body := NotificationBody (byte_val c) (byte_val s) d |}.
Proof.
  intros Hlen Hd.
  remember (marker ++ ([lh; ll] ++ [B 3]) ++ ([c] ++ [s]) ++ d) as data eqn:Hdata.
  assert (Z.of_nat (length data) = 21 + Z.of_nat (length d)) as Hsize.
  { subst data. rewrite !length_app. cbn [length marker repeat]. lia. }
  assert (marker_bad data = false) as Hm by (subst data; reflexivity).
  assert (unpack_H (slice 16 18 data) = Ok (256 * byte_val lh + byte_val ll))
    as Hl by (subst data; reflexivity).
  assert (index data 18 = Ok (B 3)) as Ht by (subst data; reflexivity).
  assert (unpack_BB (slice 19 21 data) = Ok (byte_val c, byte_val s))
    as Hc by (subst data; reflexivity).
  assert (forall n, slice 21 n data = firstn (n - 21) d) as Hs
    by (intros n; subst data; reflexivity).
  unfold DecodeMessage_init.
  rewrite Hsize, Hm, Hl. cbn [bind]. rewrite Ht. cbn [bind].
  rewrite Hlen.
  replace (21 + Z.of_nat (length d) <? 19) with false by (symmetry; apply Z.ltb_ge; lia).
  replace (4096 <? 21 + Z.of_nat (length d)) with false by (symmetry; apply Z.ltb_ge; lia).
  replace (21 + Z.of_nat (length d) <? 21 + Z.of_nat (length d)) with false
    by (symmetry; apply Z.ltb_irrefl).
  change (byte_val (B 3)) with 3.
  cbn [orb negb known_type Z.eqb OPEN UPDATE NOTIFICATION KEEPALIVE Pos.eqb].
  unfold decode_notification.
  replace (21 + Z.of_nat (length d) <? 19 + 2) with false by (symmetry; apply Z.ltb_ge; lia).
  rewrite Hc. cbn [bind fst snd]. rewrite Hs.
  rewrite firstn_all2 by lia. reflexivity.
Qed.

(** The code and subcode the four OPEN checks leave on a message that had
    none: those of the last check that fails. *)
Lemma open_checks_verdict (version asn hold_time : Z) (id local_id : string)
    (peer_asn : Z) (self : DecodeMessage) :
  message_error_code self = 0 ->
  message_error_subcode self = 0 ->
  let self' := open_checks version asn hold_time id local_id peer_asn self in
  (message_error_code self', message_error_subcode self')
  = if (hold_time =? 1) || (hold_time =? 2)
    then (OPEN_MESSAGE_ERROR, UNACCEPTABLE_HOLD_TIME)
    else if String.eqb id local_id
    then (OPEN_MESSAGE_ERROR, BAD_BGP_IDENTIFIER)
    else if negb (asn =? peer_asn)
    then (OPEN_MESSAGE_ERROR, BAD_PEER_AS)
    else if negb (version =? 4)
    then (OPEN_MESSAGE_ERROR, UNSUPPORTED_VERSION_NUMBER)
    else (0, 0).
Proof.
  intros Hc Hs. unfold open_checks.
  destruct (negb (version =? 4)), (negb (asn =? peer_asn)),
    (String.eqb id local_id), ((hold_time =? 1) || (hold_time =? 2));
    cbn; rewrite ?Hc, ?Hs; reflexivity.
Qed.

(** Decoding an OPEN buffer laid out as [Open.write] lays it out, with at
    least one byte of optional parameters. *)
Lemma decode_open_buffer (lh ll v a1 a2 h1 h2 i1 i2 i3 i4 o o1 : byte)
    (opt' : list byte) (local_id : string) (peer_asn : Z) :
  256 * byte_val lh + byte_val ll = 29 + Z.of_nat (length (o1 :: opt')) ->
  (length (o1 :: opt') <= 255)%nat ->
  exists m hold_time id opt_len,
    DecodeMessage_init
      (marker ++ ([lh; ll] ++ [B 1])
              ++ ([v] ++ [a1; a2] ++ [h1; h2] ++ [i1; i2; i3; i4] ++ [o])
              ++ o1 :: opt')
      local_id peer_asn = Ok m
    /\ msg_type m = Some OPEN
    /\ msg_length m = Some (29 + Z.of_nat (length (o1 :: opt')))
    /\ body m = OpenBody (byte_val v) (256 * byte_val a1 + byte_val a2)
                         hold_time id opt_len (o1 :: opt')
    /\ (message_error_code m, message_error_subcode m)
       = if (hold_time =? 1) || (hold_time =? 2)
         then (OPEN_MESSAGE_ERROR, UNACCEPTABLE_HOLD_TIME)
         else if String.eqb id local_id
         then (OPEN_MESSAGE_ERROR, BAD_BGP_IDENTIFIER)
         else if negb (256 * byte_val a1 + byte_val a2 =? peer_asn)
         then (OPEN_MESSAGE_ERROR, BAD_PEER_AS)
         else if negb (byte_val v =? 4)
         then (OPEN_MESSAGE_ERROR, UNSUPPORTED_VERSION_NUMBER)
         else (0, 0).
Proof.
  intros Hlen Hopt.
  remember (o1 :: opt') as opt eqn:Hoptdef.
  remember (marker ++ ([lh; ll] ++ [B 1])
              ++ ([v] ++ [a1; a2] ++ [h1; h2] ++ [i1; i2; i3; i4] ++ [o])
              ++ opt) as data eqn:Hdata.
  assert (Z.of_nat (length data) = 29 + Z.of_nat (length opt)) as Hsize.
  { subst data. rewrite !length_app. cbn [length marker repeat]. lia. }
  assert (marker_bad data = false) as Hm by (subst data; reflexivity).
  assert (unpack_H (slice 16 18 data) = Ok (256 * byte_val lh + byte_val ll))
    as Hl by (subst data; reflexivity).
  assert (index data 18 = Ok (B 1)) as Ht by (subst data; reflexivity).
  assert (index data 19 = Ok v) as Hv by (subst data; reflexivity).
  assert (unpack_H (slice 20 22 data) = Ok (256 * byte_val a1 + byte_val a2))
    as Ha by (subst data; reflexivity).
  assert (unpack_H (slice 23 25 data) = Ok (256 * byte_val h2 + byte_val i1))
    as Hh by (subst data; reflexivity).
  assert (unpack_4s (slice 25 29 data) = Ok [i2; i3; i4; o])
    as Hp by (subst data; reflexivity).
  assert (index data 29 = Ok o1) as Ho by (subst data opt; reflexivity).
  assert (forall n, slice 29 n data = firstn (n - 29) opt) as Hs
    by (intros n; subst data; reflexivity).
  unfold DecodeMessage_init.
  rewrite Hsize, Hm, Hl. cbn [bind]. rewrite Ht. cbn [bind].
  rewrite Hlen.
  replace (29 + Z.of_nat (length opt) <? 19) with false by (symmetry; apply Z.ltb_ge; lia).
  replace (4096 <? 29 + Z.of_nat (length opt)) with false by (symmetry; apply Z.ltb_ge; lia).
  replace (29 + Z.of_nat (length opt) <? 29 + Z.of_nat (length opt)) with false
    by (symmetry; apply Z.ltb_irrefl).
  change (byte_val (B 1)) with 1.
  cbn [orb negb known_type Z.eqb OPEN UPDATE NOTIFICATION KEEPALIVE Pos.eqb].
  unfold decode_open.
  replace (29 + Z.of_nat (length opt) <? 19 + 10) with false by (symmetry; apply Z.ltb_ge; lia).
  rewrite Hv. cbn [bind]. rewrite Ha. cbn [bind]. rewrite Hh. cbn [bind].
  rewrite Hp. cbn [bind inet_ntoa]. rewrite Ho. cbn [bind]. rewrite Hs.
  rewrite firstn_all2 by lia.
  eexists. exists (256 * byte_val h2 + byte_val i1).
  eexists. exists (byte_val o1). split; [reflexivity|].
  match goal with
  | |- context [open_checks ?v ?a ?h ?i ?l ?p ?self] =>
      destruct (open_checks_frame v a h i l p self) as (Hb & Hty & Hle & _);
      pose proof (open_checks_verdict v a h i l p self eq_refl eq_refl)
        as Hverdict
  end.
  cbv zeta in Hverdict.
  rewrite Hty, Hle, Hb. cbn [msg_type msg_length body set_body set_header].
  repeat split. exact Hverdict.
Qed.

(** C1, as amended.  Keepalive, and every Notification whose codes are bytes
    and whose data leave the Length within 4096, are decoded from the bytes
    [write] produces into the same type and fields, with no error code set.
    For an Open whose fields fit their wire widths and that carries 1..255
    bytes of optional parameters, the decoder returns a message of type OPEN
    with the same version, asn and optional parameters, and with the error
    code and subcode that the four OPEN checks leave on the decoded fields,
    the last failing one winning: decoded hold time in {1,2} gives (2,6);
    else decoded identifier equal to [local_id] gives (2,3); else asn other
    than [peer_asn] gives (2,2); else version other than 4 gives (2,1); else
    none.  So OPEN_MESSAGE_ERROR is set whenever the version is not 4 or the
    asn is not [peer_asn]. *)
Theorem codec_roundtrip_amended
    (error_code error_subcode : Z) (data : list byte)
    (version asn hold_time : Z) (id : byte * byte * byte * byte)
    (opt : list byte) (local_id : string) (peer_asn : Z) :
  0 <= error_code < 256 ->
  0 <= error_subcode < 256 ->
  (length data <= 4075)%nat ->
  0 <= version < 256 ->
  0 <= asn < 65536 ->
  0 <= hold_time < 65536 ->
  (0 < length opt <= 255)%nat ->
  decode_written Keepalive.write local_id peer_asn
    = Ok {| data_length_error := false;
            data_length_expected := 19;
            data_length_received := 19;
            message_error_code := 0;
            message_error_subcode := 0;
            message_error_data := [];
            msg_length := Some 19;
            msg_type := Some KEEPALIVE;
            body := NoBody |}
  /\ decode_written
       (Notification.write (Notification.init error_code error_subcode data))
       local_id peer_asn
     = Ok {| data_length_error := false;
             data_length_expected := 19;
             data_length_received := 21 + Z.of_nat (length data);
             message_error_code := 0;
             message_error_subcode := 0;
             message_error_data := [];
             msg_length := Some (21 + Z.of_nat (length data));
             msg_type := Some NOTIFICATION;
             body := NotificationBody error_code error_subcode data |}
  /\ exists m decoded_hold_time decoded_id decoded_opt_len,
       decode_written
         (Open.write (Open.init id asn hold_time opt version))
         local_id peer_asn = Ok m
       /\ msg_type m = Some OPEN
       /\ msg_length m = Some (29 + Z.of_nat (length opt))
       /\ body m = OpenBody version asn decoded_hold_time decoded_id
                            decoded_opt_len opt
       /\ (message_error_code m, message_error_subcode m)
          = (if (decoded_hold_time =? 1) || (decoded_hold_time =? 2)
             then (OPEN_MESSAGE_ERROR, UNACCEPTABLE_HOLD_TIME)
             else if String.eqb decoded_id local_id
             then (OPEN_MESSAGE_ERROR, BAD_BGP_IDENTIFIER)
             else if negb (asn =? peer_asn)
             then (OPEN_MESSAGE_ERROR, BAD_PEER_AS)
             else if negb (version =? 4)
             then (OPEN_MESSAGE_ERROR, UNSUPPORTED_VERSION_NUMBER)
             else (0, 0))
       /\ (version <> 4 \/ asn <> peer_asn ->
           message_error_code m = OPEN_MESSAGE_ERROR).
Proof.
  intros Hc Hs Hd Hv Ha Hh Ho.
  split; [reflexivity|]. split.
  - destruct (pack_H_some (21 + Z.of_nat (length data))) as (lh & ll & El & Vl);
      [lia|].
    destruct (pack_B_some error_code Hc) as (c & Ec & Vc).
    destruct (pack_B_some error_subcode Hs) as (s & Es & Vs).
    unfold Notification.write, Notification.init, decode_written.
    cbn [Notification.len Notification.type Notification.error_code
         Notification.error_subcode Notification.data].
    replace (19 + 2 + Z.of_nat (length data)) with (21 + Z.of_nat (length data))
      by lia.
    rewrite El, Ec, Es. change (pack_B NOTIFICATION) with (Some [B 3]).
    cbv beta iota.
    rewrite (decode_notification_buffer lh ll c s data local_id peer_asn Vl Hd).
    rewrite Vc, Vs. reflexivity.
  - destruct opt as [|o1 opt']; [cbn in Ho; lia|].
    destruct id as [[[ia ib] ic] idd].
    destruct (pack_H_some (29 + Z.of_nat (length (o1 :: opt'))))
      as (lh & ll & El & Vl); [lia|].
    destruct (pack_B_some version Hv) as (v & Ev & Vv).
    destruct (pack_H_some asn Ha) as (a1 & a2 & Ea & Va).
    destruct (pack_H_some hold_time Hh) as (h1 & h2 & Eh & Vh).
    destruct (pack_B_some (Z.of_nat (length (o1 :: opt')))) as (o & Eo & Vo);
      [lia|].
    pose proof (byte_val_range ia). pose proof (byte_val_range ib).
    pose proof (byte_val_range ic). pose proof (byte_val_range idd).
    destruct (pack_L_some (16777216 * byte_val ia + 65536 * byte_val ib
                           + 256 * byte_val ic + byte_val idd))
      as (i1 & i2 & i3 & i4 & Ei); [lia|].
    unfold Open.write, Open.init, decode_written.
    cbn [Open.len Open.type Open.version Open.asn Open.hold_time Open.bgp_id
         Open.opt_len Open.opt].
    replace (19 + 10 + Z.of_nat (length (o1 :: opt')))
      with (29 + Z.of_nat (length (o1 :: opt'))) by lia.
    rewrite El, Ev, Ea, Eh, Ei, Eo. change (pack_B OPEN) with (Some [B 1]).
    cbv beta iota.
    destruct (decode_open_buffer lh ll v a1 a2 h1 h2 i1 i2 i3 i4 o o1 opt'
                local_id peer_asn Vl)
      as (m & dh & di & dol & Hm & Hty & Hle & Hb & Hverdict);
      [lia|].
    exists m, dh, di, dol. rewrite Vv, Va in Hb, Hverdict.
    repeat (split; [assumption|]).
    intros Hbad.
    assert (fst (message_error_code m, message_error_subcode m)
            = OPEN_MESSAGE_ERROR) as Hcode; [|exact Hcode].
    rewrite Hverdict.
    destruct ((dh =? 1) || (dh =? 2)); [reflexivity|].
    destruct (String.eqb di local_id); [reflexivity|].
    destruct (Z.eqb_spec asn peer_asn) as [Easn|Nasn]; [|reflexivity].
    destruct (Z.eqb_spec version 4) as [Ever|Nver]; [|reflexivity].
    destruct Hbad; contradiction.
Qed.

Lemma codec_roundtrip_amended_witness :
  decode_written Keepalive.write "2.2.2.2" 65001
    = Ok {| data_length_error := false;
            data_length_expected := 19;
            data_length_received := 19;
            message_error_code := 0;
            message_error_subcode := 0;
            message_error_data := [];
            msg_length := Some 19;
            msg_type := Some KEEPALIVE;
            body := NoBody |}
  /\ decode_written
       (Notification.write (Notification.init 6 0 [B 1; B 2]))
       "2.2.2.2" 65001
     = Ok {| data_length_error := false;
             data_length_expected := 19;
             data_length_received := 23;
             message_error_code := 0;
             message_error_subcode := 0;
             message_error_data := [];
             msg_length := Some 23;
             msg_type := Some NOTIFICATION;
             body := NotificationBody 6 0 [B 1; B 2] |}
  /\ exists m decoded_hold_time decoded_id decoded_opt_len,
       decode_written
         (Open.write (Open.init (B 10, B 0, B 0, B 1) 65001 90 [B 2; B 0] 3))
         "2.2.2.2" 65001 = Ok m
       /\ msg_type m = Some OPEN
       /\ msg_length m = Some 31
       /\ body m = OpenBody 3 65001 decoded_hold_time decoded_id
                            decoded_opt_len [B 2; B 0]
       /\ message_error_code m = OPEN_MESSAGE_ERROR.
Proof.
  destruct (codec_roundtrip_amended 6 0 [B 1; B 2] 3 65001 90
              (B 10, B 0, B 0, B 1) [B 2; B 0] "2.2.2.2" 65001)
    as (Hk & Hn & m & dh & di & dol & Hm & Hty & Hle & Hb & _ & Herr);
    try (cbn; lia).
  split; [exact Hk|]. split; [exact Hn|].
  exists m, dh, di, dol.
  repeat (split; [assumption|]).
  apply Herr. left. discriminate.
Defined.

(** C1 fails as stated.  The Open of version 3 with asn 65001, hold time
    257, identifier 1.1.1.1 and the one option byte 1 is decoded, for
    [peer_asn] 65001 and [local_id] 2.2.2.2, with every field as it was
    written, and with the error code OPEN_MESSAGE_ERROR /
    UNSUPPORTED_VERSION_NUMBER set: the version check rejects it.  A
    Notification with 4076 data bytes, whose Length is 4097, is decoded into
    MESSAGE_HEADER_ERROR / BAD_MESSAGE_LENGTH with no body: the Length check
    rejects it. *)
Lemma codec_roundtrip_counterexample :
  (exists m,
     decode_written
       (Open.write (Open.init (B 1, B 1, B 1, B 1) 65001 257 [B 1] 3))
       "2.2.2.2" 65001 = Ok m
     /\ msg_type m = Some OPEN
     /\ body m = OpenBody 3 65001 257 "1.1.1.1" 1 [B 1]
     /\ message_error_code m = OPEN_MESSAGE_ERROR
     /\ message_error_subcode m = UNSUPPORTED_VERSION_NUMBER)
  /\ (exists m,
        decode_written
          (Notification.write (Notification.init 6 0 (repeat x00 4076)))
          "2.2.2.2" 65001 = Ok m
        /\ message_error_code m = MESSAGE_HEADER_ERROR
        /\ message_error_subcode m = BAD_MESSAGE_LENGTH
        /\ body m = NoBody).
Proof.
  split.
  - eexists. split; [vm_compute; reflexivity|]. repeat split.
  - eexists. split; [vm_compute; reflexivity|]. repeat split.
Qed.

(** ** The codec: what the decoder reports *)

(** Past the length and marker checks the decoder works on the Length and
    Type fields of bytes 16..18. *)
Lemma DecodeMessage_init_valid_marker (data : list byte) (local_id : string)
    (peer_asn : Z) :
  (19 <= length data)%nat ->
  marker_bad data = false ->
  DecodeMessage_init data local_id peer_asn
  = let len := be16_at data 16 in
    let type := nth 18 data x00 in
    let self := set_header len (byte_val type)
                  {| data_length_error := false;
                     data_length_expected := 19;
                     data_length_received := Z.of_nat (length data);
                     message_error_code := 0;
                     message_error_subcode := 0;
                     message_error_data := [];
                     msg_length := None;
                     msg_type := None;
                     body := NoBody |} in
    if (len <? 19) || (4096 <? len) then
      d <- or_raise StructError (pack_H len) ;;
      Ok (set_error_data d (set_error MESSAGE_HEADER_ERROR BAD_MESSAGE_LENGTH self))
    else if negb (known_type (byte_val type)) then
      d <- or_raise StructError (pack_B (byte_val type)) ;;
      Ok (set_error_data d (set_error MESSAGE_HEADER_ERROR BAD_MESSAGE_TYPE self))
    else if Z.of_nat (length data) <? len then
      Ok (set_data_length_error len self)
    else if byte_val type =? OPEN then
      decode_open data len local_id peer_asn self
    else if byte_val type =? UPDATE then
      decode_update data self
    else if byte_val type =? NOTIFICATION then
      decode_notification data len self
    else
      Ok self.
Proof.
  intros Hlen Hm.
  destruct (header_steps data Hlen) as (E1 & E2 & E3).
  unfold DecodeMessage_init.
  rewrite E1, Hm, E2. cbn [bind]. rewrite E3. reflexivity.
Qed.

(** C2 (the code departs from the claim).  In [open_wire] the hold time 90
    is at bytes 22..24, the identifier 10.0.0.1 at bytes 24..28 and the
    optional-parameter length at byte 28; the decoder reads bytes 23..25,
    25..29 and 29 and returns hold time 23050 and identifier 0.0.1.2.  The
    same message without optional parameters, 29 bytes, makes it raise
    IndexError at byte 29. *)
Theorem open_decoder_reads_shifted_offsets :
  Open.write (Open.init (B 10, B 0, B 0, B 1) 65001 90 [B 2; B 0] 4)
    = Some open_wire
  /\ be16_at open_wire 22 = 90
  /\ inet_ntoa (slice 24 28 open_wire) = Ok "10.0.0.1"%string
  /\ byte_val (nth 28 open_wire x00) = 2
  /\ DecodeMessage_init open_wire "1.1.1.1" 65001
     = Ok {| data_length_error := false;
             data_length_expected := 19;
             data_length_received := 31;
             message_error_code := 0;
             message_error_subcode := 0;
             message_error_data := [];
             msg_length := Some 31;
             msg_type := Some OPEN;
             body := OpenBody 4 65001 23050 "0.0.1.2" 2 [B 2; B 0] |}
  /\ decode_written
       (Open.write (Open.init (B 10, B 0, B 0, B 1) 65001 90 [] 4))
       "1.1.1.1" 65001 = Raise IndexError.
Proof.
  repeat split; vm_compute; reflexivity.
Qed.

(** C3 fails as stated.  [open_wire_v3_bad_asn] is a complete OPEN with
    version 3; decoded for peer asn 65002 it reports BAD_PEER_AS, not
    UNSUPPORTED_VERSION_NUMBER, because its asn 65099 fails the later
    check. *)
Lemma codec_rejection_counterexample :
  exists m,
    DecodeMessage_init open_wire_v3_bad_asn "1.1.1.1" 65002 = Ok m
    /\ byte_val (nth 19 open_wire_v3_bad_asn x00) = 3
    /\ message_error_code m = OPEN_MESSAGE_ERROR
    /\ message_error_subcode m = BAD_PEER_AS
    /\ message_error_subcode m <> UNSUPPORTED_VERSION_NUMBER.
Proof.
  eexists. split; [vm_compute; reflexivity|].
  repeat split. discriminate.
Qed.

(** C3, as amended.  On a buffer of at least 19 bytes: a marker byte other
    than 0xFF gives (1,1); else a Length below 19 or above 4096 gives (1,2)
    with the Length on 16 bits as data; else a Type outside 1..4 gives (1,3)
    with the Type byte as data; and a complete OPEN of Length at least 29,
    in a buffer of more than 29 bytes, is decoded with its version taken at
    byte 19 and its asn at bytes 20..22, and reports the last failing one of
    the four checks on the decoded fields: hold time in {1,2} gives (2,6);
    else identifier equal to [local_id] gives (2,3); else asn other than
    [peer_asn] gives (2,2); else version other than 4 gives (2,1); else no
    error. *)
Theorem codec_rejection_amended (data : list byte) (local_id : string)
    (peer_asn : Z) :
  (19 <= length data)%nat ->
  ((exists i, (i < 16)%nat /\ byte_val (nth i data x00) <> 255) ->
   exists m,
     DecodeMessage_init data local_id peer_asn = Ok m
     /\ message_error_code m = MESSAGE_HEADER_ERROR
     /\ message_error_subcode m = CONNECTION_NOT_SYNCHRONISED)
  /\ ((forall i, (i < 16)%nat -> byte_val (nth i data x00) = 255) ->
      (be16_at data 16 < 19 \/ 4096 < be16_at data 16 ->
       exists m,
         DecodeMessage_init data local_id peer_asn = Ok m
         /\ message_error_code m = MESSAGE_HEADER_ERROR
         /\ message_error_subcode m = BAD_MESSAGE_LENGTH
         /\ pack_H (be16_at data 16) = Some (message_error_data m))
      /\ (19 <= be16_at data 16 <= 4096 ->
          byte_val (nth 18 data x00) <> 1 /\ byte_val (nth 18 data x00) <> 2
          /\ byte_val (nth 18 data x00) <> 3 /\ byte_val (nth 18 data x00) <> 4 ->
          exists m,
            DecodeMessage_init data local_id peer_asn = Ok m
            /\ message_error_code m = MESSAGE_HEADER_ERROR
            /\ message_error_subcode m = BAD_MESSAGE_TYPE
            /\ message_error_data m = [nth 18 data x00])
      /\ (29 <= be16_at data 16 <= 4096 ->
          byte_val (nth 18 data x00) = OPEN ->
          be16_at data 16 <= Z.of_nat (length data) ->
          (29 < length data)%nat ->
          exists m hold_time id opt_len opt_param,
            DecodeMessage_init data local_id peer_asn = Ok m
            /\ body m = OpenBody (byte_val (nth 19 data x00)) (be16_at data 20)
                                 hold_time id opt_len opt_param
            /\ (message_error_code m, message_error_subcode m)
               = if (hold_time =? 1) || (hold_time =? 2)
                 then (OPEN_MESSAGE_ERROR, UNACCEPTABLE_HOLD_TIME)
                 else if String.eqb id local_id
                 then (OPEN_MESSAGE_ERROR, BAD_BGP_IDENTIFIER)
                 else if negb (be16_at data 20 =? peer_asn)
                 then (OPEN_MESSAGE_ERROR, BAD_PEER_AS)
                 else if negb (byte_val (nth 19 data x00) =? 4)
                 then (OPEN_MESSAGE_ERROR, UNSUPPORTED_VERSION_NUMBER)
                 else (0, 0))).
Proof.
  intros Hlen. split.
  - intros Hbad. eexists. split.
    + unfold DecodeMessage_init.
      destruct (header_steps data Hlen) as (E1 & _).
      rewrite E1, (marker_bad_true data) by (lia || assumption).
      reflexivity.
    + split; reflexivity.
  - intros Hall.
    pose proof (marker_bad_false data ltac:(lia) Hall) as Hm.
    pose proof (DecodeMessage_init_valid_marker data local_id peer_asn Hlen Hm)
      as Hdec.
    cbv zeta in Hdec.
    split; [|split].
    + intros Hbad.
      assert ((be16_at data 16 <? 19) || (4096 <? be16_at data 16) = true) as Hb.
      { apply orb_true_iff. destruct Hbad; [left|right]; apply Z.ltb_lt; lia. }
      rewrite Hb in Hdec.
      assert (pack_H (be16_at data 16) = Some [nth 16 data x00; nth 17 data x00])
        as Hp by apply pack_H_be16.
      rewrite Hp in Hdec. cbn [or_raise bind] in Hdec.
      eexists. split; [exact Hdec|]. repeat split. exact Hp.
    + intros Hrange (H1 & H2 & H3 & H4).
      assert ((be16_at data 16 <? 19) || (4096 <? be16_at data 16) = false) as Hb.
      { apply orb_false_iff. split; apply Z.ltb_ge; lia. }
      assert (known_type (byte_val (nth 18 data x00)) = false) as Hk.
      { unfold known_type, OPEN, UPDATE, NOTIFICATION, KEEPALIVE.
        repeat (apply orb_false_iff; split); apply Z.eqb_neq; assumption. }
      rewrite Hb, Hk in Hdec. cbn [negb] in Hdec.
      unfold pack_B in Hdec. rewrite byte_of_val in Hdec.
      cbn [or_raise bind] in Hdec.
      eexists. split; [exact Hdec|]. repeat split.
    + intros Hrange Hty Hcomplete Hmore.
      assert ((be16_at data 16 <? 19) || (4096 <? be16_at data 16) = false) as Hb.
      { apply orb_false_iff. split; apply Z.ltb_ge; lia. }
      rewrite Hb, Hty in Hdec.
      change (negb (known_type OPEN)) with false in Hdec.
      change (OPEN =? OPEN) with true in Hdec.
      replace (Z.of_nat (length data) <? be16_at data 16) with false in Hdec
        by (symmetry; apply Z.ltb_ge; lia).
      unfold decode_open in Hdec.
      replace (be16_at data 16 <? 19 + 10) with false in Hdec
        by (symmetry; apply Z.ltb_ge; lia).
      rewrite (index_nth data 19) in Hdec by lia.
      pose proof (unpack_H_slice data 20 ltac:(lia)) as Ha.
      pose proof (unpack_H_slice data 23 ltac:(lia)) as Hh.
      change (20 + 2)%nat with 22%nat in Ha.
      change (23 + 2)%nat with 25%nat in Hh.
      assert (unpack_4s (slice 25 29 data)
              = Ok [nth 25 data x00; nth 26 data x00; nth 27 data x00;
                    nth 28 data x00]) as Hp.
      { rewrite slice_seq by lia. reflexivity. }
      cbn [bind] in Hdec. rewrite Ha in Hdec. cbn [bind] in Hdec.
      rewrite Hh in Hdec. cbn [bind] in Hdec.
      rewrite Hp in Hdec. cbn [bind inet_ntoa] in Hdec.
      rewrite (index_nth data 29) in Hdec by lia. cbn [bind] in Hdec.
      eexists. exists (be16_at data 23). eexists.
      exists (byte_val (nth 29 data x00)).
      exists (slice 29 (Z.to_nat (be16_at data 16)) data).
      split; [exact Hdec|]. split.
      * match goal with
        | |- context [open_checks ?v ?a ?h ?i ?l ?p ?self] =>
            destruct (open_checks_frame v a h i l p self) as (Hbd & _)
        end.
        rewrite Hbd. reflexivity.
      * apply open_checks_verdict; reflexivity.
Qed.

Lemma codec_rejection_amended_witness :
  (exists m,
     DecodeMessage_init (B 254 :: repeat xff 18) "1.1.1.1" 65002 = Ok m
     /\ message_error_code m = MESSAGE_HEADER_ERROR
     /\ message_error_subcode m = CONNECTION_NOT_SYNCHRONISED)
  /\ (exists m hold_time id opt_len opt_param,
        DecodeMessage_init open_wire_v3_bad_asn "1.1.1.1" 65002 = Ok m
        /\ body m = OpenBody 3 65099 hold_time id opt_len opt_param).
Proof.
  split.
  - refine (proj1 (codec_rejection_amended (B 254 :: repeat xff 18)
                     "1.1.1.1" 65002 _) _).
    + cbn. lia.
    + exists 0%nat. split; [lia | discriminate].
  - assert (19 <= length open_wire_v3_bad_asn)%nat as Hlen by (cbn; lia).
    assert (forall i, (i < 16)%nat ->
              byte_val (nth i open_wire_v3_bad_asn x00) = 255) as Hall.
    { intros i Hi. do 16 (destruct i as [|i]; [reflexivity|]). lia. }
    destruct (proj2 (proj2 (proj2 (codec_rejection_amended
                                     open_wire_v3_bad_asn "1.1.1.1" 65002 Hlen)
                                  Hall)))
      as (m & h & i & o & p & Hd & Hb & _).
    + vm_compute. split; discriminate.
    + reflexivity.
    + vm_compute. discriminate.
    + cbn. lia.
    + exists m, h, i, o, p. split; [exact Hd | exact Hb].
Defined.

(** C5 fails as stated.  In [update_wire_overrun] the only NLRI prefix
    announces 32 bits and has no value byte left; the decoder returns it
    with no error code. *)
Lemma update_overrun_counterexample :
  exists m,
    DecodeMessage_init update_wire_overrun "1.1.1.1" 65002 = Ok m
    /\ body m = UpdateBody []
                  [{| IPv4Prefix.len := 32; IPv4Prefix.size := 4;
                      IPv4Prefix.bytes := [] |}]
    /\ message_error_code m = 0
    /\ message_error_code m <> UPDATE_MESSAGE_ERROR.
Proof.
  eexists. split; [vm_compute; reflexivity|].
  repeat split. discriminate.
Qed.

(** C5, as amended.  A complete UPDATE buffer in which the two 16-bit block
    lengths can be read is decoded without any check of its structure: the
    decoder returns the withdrawn and announced prefixes its loops collect
    and reports no error, whatever the blocks consume. *)
Theorem update_decoder_reports_no_error (data : list byte) (local_id : string)
    (peer_asn : Z) :
  (19 <= length data)%nat ->
  (forall i, (i < 16)%nat -> byte_val (nth i data x00) = 255) ->
  19 <= be16_at data 16 <= 4096 ->
  byte_val (nth 18 data x00) = UPDATE ->
  be16_at data 16 <= Z.of_nat (length data) ->
  (23 + Z.to_nat (be16_at data 19) <= length data)%nat ->
  exists m prefixes_del prefixes_add,
    DecodeMessage_init data local_id peer_asn = Ok m
    /\ body m = UpdateBody prefixes_del prefixes_add
    /\ data_length_error m = false
    /\ message_error_code m = 0
    /\ message_error_subcode m = 0
    /\ message_error_data m = [].
Proof.
  intros Hlen Hall Hrange Hty Hcomplete Hfields.
  pose proof (marker_bad_false data ltac:(lia) Hall) as Hm.
  rewrite (DecodeMessage_init_valid_marker data local_id peer_asn Hlen Hm).
  cbv zeta.
  replace ((be16_at data 16 <? 19) || (4096 <? be16_at data 16)) with false
    by (symmetry; apply orb_false_iff; split; apply Z.ltb_ge; lia).
  rewrite Hty.
  change (negb (known_type UPDATE)) with false.
  change (UPDATE =? OPEN) with false. change (UPDATE =? UPDATE) with true.
  replace (Z.of_nat (length data) <? be16_at data 16) with false
    by (symmetry; apply Z.ltb_ge; lia).
  unfold decode_update.
  pose proof (unpack_H_slice data 19 ltac:(lia)) as Hd.
  change (19 + 2)%nat with 21%nat in Hd.
  rewrite Hd. cbn [bind].
  destruct (prefix_loop_ok
              (slice 21 (21 + Z.to_nat (be16_at data 19)) data) 0)
    as [dels Hdels].
  rewrite Hdels. cbn [bind].
  rewrite (unpack_H_slice data (21 + Z.to_nat (be16_at data 19))) by lia.
  cbn [bind].
  match goal with
  | |- context [prefix_loop ?raw 0] =>
      destruct (prefix_loop_ok raw 0) as [adds Hadds]; rewrite Hadds
  end.
  cbn [bind].
  eexists. exists dels, adds. split; [reflexivity|]. repeat split.
Qed.

Lemma update_decoder_reports_no_error_witness :
  exists m prefixes_del prefixes_add,
    DecodeMessage_init update_wire_overrun "1.1.1.1" 65002 = Ok m
    /\ body m = UpdateBody prefixes_del prefixes_add
    /\ data_length_error m = false
    /\ message_error_code m = 0
    /\ message_error_subcode m = 0
    /\ message_error_data m = [].
Proof.
  apply (update_decoder_reports_no_error update_wire_overrun "1.1.1.1" 65002).
  - cbn. lia.
  - intros i Hi.
    do 16 (destruct i as [|i]; [reflexivity|]). lia.
  - vm_compute. split; discriminate.
  - reflexivity.
  - vm_compute. discriminate.
  - vm_compute. lia.
Defined.

(** ** The session state machine *)

(** The serial number an event gets is the field after its increment. *)
Lemma enqueue_event_serial (event : Event) (self : BgpFsm) :
  event_serial_number (enqueue_event event self) = event_serial_number self + 1
  /\ exists queue,
       event_queue (enqueue_event event self)
       = queue ++ [{| name := name event;
                      serial_number := event_serial_number self + 1 |}].
Proof.
  unfold enqueue_event.
  destruct (str_in (name _) _); cbn; split; try reflexivity.
  - exists []. reflexivity.
  - exists (event_queue self). reflexivity.
Qed.

(** C7 (the code departs from the claim).  With the field at 65535, the next
    event is given serial 65536 and the field stays at 65536: the reset to 1
    goes to a local variable.  The claim has the next serial be 1. *)
Theorem enqueue_event_after_65535 (event : Event) (self : BgpFsm) :
  let self' := enqueue_event event (set_event_serial_number 65535 self) in
  event_serial_number self' = 65536
  /\ exists queue,
       event_queue self'
       = queue ++ [{| name := name event; serial_number := 65536 |}].
Proof.
  cbv zeta.
  destruct (enqueue_event_serial event (set_event_serial_number 65535 self))
    as [Hf [queue Hq]].
  split; [exact Hf|]. exists queue. exact Hq.
Qed.

(** C9.  Every call [change_state("Idle")] completes and leaves the three
    timers and the peer port at zero and the connection closed. *)
Theorem change_state_idle (self : BgpFsm) :
  exists self',
    change_state "Idle" self = Done tt self'
    /\ state self' = "Idle"%string
    /\ connect_retry_timer self' = 0
    /\ keepalive_timer self' = 0
    /\ hold_timer self' = 0
    /\ peer_port self' = 0
    /\ tcp_connection_established self' = false.
Proof.
  eexists. split; [reflexivity|]. cbn. repeat split.
Qed.

(** C6 (the code departs from the claim).  For each of the six events the
    handler raises AttributeError at the misspelt method name, on the session
    as it was: no NOTIFICATION is sent, the counter is not incremented and the
    state does not change. *)
Theorem fsm_established_fsm_error_raises :
  Forall (fun n => forall (sn : Z) (self : BgpFsm),
            fsm_established {| name := n; serial_number := sn |} self
            = Raised AttributeError self)
         fsm_error_events.
Proof.
  repeat constructor; intros sn self; reflexivity.
Qed.

(** C10.  In Established, KeepAliveMsg and UpdateMsg restart the hold timer
    and change nothing else; nothing is sent. *)
Theorem fsm_established_keepalive_update (event : Event) (self : BgpFsm) :
  state self = "Established"%string ->
  name event = "Event 26: KeepAliveMsg"%string
    \/ name event = "Event 27: UpdateMsg"%string ->
  exists self',
    fsm_established event self = Done tt self'
    /\ self' = set_hold_timer (hold_time self) self
    /\ hold_timer self' = hold_time self
    /\ state self' = "Established"%string
    /\ connect_retry_counter self' = connect_retry_counter self
    /\ connect_retry_timer self' = connect_retry_timer self
    /\ keepalive_timer self' = keepalive_timer self
    /\ keepalive_time self' = keepalive_time self
    /\ hold_time self' = hold_time self
    /\ peer_port self' = peer_port self
    /\ peer_id self' = peer_id self
    /\ sent self' = sent self.
Proof.
  intros Hstate Hname. destruct event as [n sn]. cbn in Hname.
  exists (set_hold_timer (hold_time self) self).
  split.
  - destruct Hname; subst n; reflexivity.
  - cbn. repeat split. exact Hstate.
Qed.

Lemma fsm_established_keepalive_update_witness :
  state established_session = "Established"%string
  /\ exists self',
       fsm_established {| name := "Event 26: KeepAliveMsg"; serial_number := 8 |}
                       established_session = Done tt self'
       /\ hold_timer self' = 60.
Proof.
  split; [reflexivity|].
  destruct (fsm_established_keepalive_update
              {| name := "Event 26: KeepAliveMsg"; serial_number := 8 |}
              established_session eq_refl (or_introl eq_refl))
    as [self' [H1 [_ [H3 _]]]].
  exists self'. split; [exact H1 | exact H3].
Defined.

(** When the handler of OpenConfirm completes and leaves the session in
    Established, the loop body goes on to run the handler of Established on
    the same event. *)
Lemma fsm_dispatch_falls_through
    (fsm_idle fsm_connect fsm_active fsm_opensent fsm_openconfirm : Event -> M unit)
    (event : Event) (self self' : BgpFsm) :
  state self = "OpenConfirm"%string ->
  fsm_openconfirm event self = Done tt self' ->
  state self' = "Established"%string ->
  fsm_dispatch fsm_idle fsm_connect fsm_active fsm_opensent fsm_openconfirm
               event self
  = mbind (fsm_established event)
          (fun _ => ret ["OpenConfirm"; "Established"]%string) self'.
Proof.
  intros Hs Hh Hs'.
  unfold fsm_dispatch, dispatch_if, mbind, get, ret.
  repeat (rewrite Hs; cbn). rewrite Hh. rewrite Hs'. cbn.
  destruct (fsm_established event self'); reflexivity.
Qed.

(** C8 (the code departs from the claim).  In OpenConfirm, with KeepAliveMsg
    at the head of the queue, one turn of the loop dequeues the event, the
    handler of OpenConfirm moves the session to Established, and the chain of
    [if] statements then runs the handler of Established on the same event:
    two handlers run in one turn, where a dispatch keyed on the state at
    dequeue time runs one. *)
Theorem fsm_dispatch_runs_two_handlers
    (fsm_idle fsm_connect fsm_active fsm_opensent : Event -> M unit)
    (sn : Z) (self : BgpFsm) :
  let event := {| name := "Event 26: KeepAliveMsg"; serial_number := sn |} in
  let start := set_state "OpenConfirm" self in
  let final := set_hold_timer (hold_time self)
                 (set_state "Established"
                    (set_hold_timer (hold_time self) start)) in
  fsm_turn fsm_idle fsm_connect fsm_active fsm_opensent fsm_openconfirm_spec
           (set_event_queue [event] start)
  = Done ["OpenConfirm"; "Established"]%string (set_event_queue [] final)
  /\ fsm_dispatch fsm_idle fsm_connect fsm_active fsm_opensent
                  fsm_openconfirm_spec event start
     = Done ["OpenConfirm"; "Established"]%string final
  /\ fsm_dispatch_single fsm_idle fsm_connect fsm_active fsm_opensent
                         fsm_openconfirm_spec event start
     = Done ["OpenConfirm"]%string
            (set_state "Established" (set_hold_timer (hold_time self) start)).
Proof.
  cbv zeta. repeat split.
Qed.

(** * Further properties of the codec *)

(** ** [struct.pack]: when it raises *)

Lemma byte_of_some_inv (z : Z) (b : byte) :
  byte_of z = Some b -> 0 <= z < 256 /\ byte_val b = z.
Proof.
  unfold byte_of. destruct (Z.ltb_spec z 0) as [|Hz]; [discriminate|].
  intros E. apply Byte.to_of_N in E.
  pose proof (Byte.to_N_bounded b). unfold byte_val. rewrite E. lia.
Qed.

Lemma pack_B_some_inv (z : Z) (l : list byte) :
  pack_B z = Some l -> 0 <= z < 256 /\ exists b, l = [b] /\ byte_val b = z.
Proof.
  unfold pack_B. destruct (byte_of z) as [b|] eqn:E; [|discriminate].
  intros H. inversion H; subst. apply byte_of_some_inv in E.
  split; [tauto|]. exists b. tauto.
Qed.

Lemma pack_H_some_inv (z : Z) (l : list byte) :
  pack_H z = Some l ->
  0 <= z < 65536
  /\ exists h lo, l = [h; lo] /\ 256 * byte_val h + byte_val lo = z.
Proof.
  unfold pack_H.
  destruct (byte_of (z / 256)) as [h|] eqn:Eh; [|discriminate].
  destruct (byte_of (z mod 256)) as [lo|] eqn:El; [|discriminate].
  intros H. inversion H; subst.
  apply byte_of_some_inv in Eh. apply byte_of_some_inv in El.
  pose proof (Z.div_mod z 256 ltac:(lia)).
  split; [lia|]. exists h, lo. split; [reflexivity | lia].
Qed.

(** [pack_L] of the integer read from four bytes gives the four bytes. *)
Lemma pack_L_be32 (a b c d : byte) :
  pack_L (16777216 * byte_val a + 65536 * byte_val b
          + 256 * byte_val c + byte_val d) = Some [a; b; c; d].
Proof.
  pose proof (byte_val_range a). pose proof (byte_val_range b).
  pose proof (byte_val_range c). pose proof (byte_val_range d).
  set (z := 16777216 * byte_val a + 65536 * byte_val b
            + 256 * byte_val c + byte_val d).
  assert (z / 16777216 = byte_val a) as E1.
  { symmetry. apply Z.div_unique
      with (r := 65536 * byte_val b + 256 * byte_val c + byte_val d);
      unfold z; lia. }
  assert (z / 65536 = 256 * byte_val a + byte_val b) as E2.
  { symmetry. apply Z.div_unique with (r := 256 * byte_val c + byte_val d);
      unfold z; lia. }
  assert (z / 256 = 65536 * byte_val a + 256 * byte_val b + byte_val c) as E3.
  { symmetry. apply Z.div_unique with (r := byte_val d); unfold z; lia. }
  assert (z mod 256 = byte_val d) as E4.
  { symmetry.
    apply Z.mod_unique
      with (q := 65536 * byte_val a + 256 * byte_val b + byte_val c);
      unfold z; lia. }
  unfold pack_L. rewrite E1, E2, E3, E4.
  replace ((256 * byte_val a + byte_val b) mod 256) with (byte_val b)
    by (apply Z.mod_unique with (q := byte_val a); lia).
  replace ((65536 * byte_val a + 256 * byte_val b + byte_val c) mod 256)
    with (byte_val c)
    by (apply Z.mod_unique with (q := 256 * byte_val a + byte_val b); lia).
  rewrite !byte_of_val. reflexivity.
Qed.

(** ** The encoders *)

(** X1.  What [Open.write] puts on the wire when no field overflows its format:
    [29 + len(opt)] bytes, the marker, a Length equal to the byte count,
    Type 1, and the body at the protocol offsets: version at 19, asn at
    20..22, hold time at 22..24, identifier at 24..28, the length of the
    optional parameters at 28 and the parameters from 29 on. *)
Theorem Open_write_layout (a b c d : byte) (asn hold_time version : Z)
    (opt : list byte) :
  0 <= version < 256 ->
  0 <= asn < 65536 ->
  0 <= hold_time < 65536 ->
  (length opt <= 255)%nat ->
  exists bs,
    Open.write (Open.init (a, b, c, d) asn hold_time opt version) = Some bs
    /\ Z.of_nat (length bs) = 29 + Z.of_nat (length opt)
    /\ firstn 16 bs = repeat xff 16
    /\ be16_at bs 16 = Z.of_nat (length bs)
    /\ byte_val (nth 18 bs x00) = OPEN
    /\ byte_val (nth 19 bs x00) = version
    /\ be16_at bs 20 = asn
    /\ be16_at bs 22 = hold_time
    /\ slice 24 28 bs = [a; b; c; d]
    /\ byte_val (nth 28 bs x00) = Z.of_nat (length opt)
    /\ slice_from 29 bs = opt.
Proof.
  intros Hv Ha Hh Ho.
  destruct (pack_H_some (29 + Z.of_nat (length opt))) as (lh & ll & El & Vl);
    [lia|].
  destruct (pack_B_some version Hv) as (v & Ev & Vv).
  destruct (pack_H_some asn Ha) as (a1 & a2 & Ea & Va).
  destruct (pack_H_some hold_time Hh) as (h1 & h2 & Eh & Vh).
  destruct (pack_B_some (Z.of_nat (length opt))) as (o & Eo & Vo); [lia|].
  unfold Open.write, Open.init.
  cbn [Open.len Open.type Open.version Open.asn Open.hold_time Open.bgp_id
       Open.opt_len Open.opt].
  replace (19 + 10 + Z.of_nat (length opt)) with (29 + Z.of_nat (length opt))
    by lia.
  rewrite El, Ev, Ea, Eh, Eo, pack_L_be32.
  change (pack_B OPEN) with (Some [B 1]). cbv beta iota.
  eexists. split; [reflexivity|].
  assert (Z.of_nat (length (marker ++ ([lh; ll] ++ [B 1])
                            ++ ([v] ++ [a1; a2] ++ [h1; h2] ++ [a; b; c; d] ++ [o])
                            ++ opt)) = 29 + Z.of_nat (length opt)) as Hsize.
  { rewrite !length_app. cbn [length marker repeat]. lia. }
  split; [exact Hsize|].
  split; [reflexivity|].
  split; [rewrite Hsize; exact Vl|].
  split; [reflexivity|].
  split; [exact Vv|].
  split; [exact Va|].
  split; [exact Vh|].
  split; [reflexivity|].
  split; [exact Vo | reflexivity].
Qed.

Lemma Open_write_layout_witness :
  exists bs,
    Open.write (Open.init (B 10, B 0, B 0, B 1) 65001 90 [B 2; B 0] 4) = Some bs
    /\ be16_at bs 22 = 90
    /\ slice 24 28 bs = [B 10; B 0; B 0; B 1].
Proof.
  destruct (Open_write_layout (B 10) (B 0) (B 0) (B 1) 65001 90 4 [B 2; B 0])
    as (bs & Hw & _ & _ & _ & _ & _ & _ & Hh & Hi & _);
    [lia | lia | lia | cbn; lia |].
  exists bs. auto.
Defined.

(** X2.  [Open.write] raises struct.error exactly when the version is not a
    byte, the asn or the hold time does not fit 16 bits, or there are more
    than 255 bytes of optional parameters. *)
Theorem Open_write_raises_iff (id : byte * byte * byte * byte)
    (asn hold_time version : Z) (opt : list byte) :
  Open.write (Open.init id asn hold_time opt version) = None
  <-> ~ (0 <= version < 256 /\ 0 <= asn < 65536 /\ 0 <= hold_time < 65536
         /\ (length opt <= 255)%nat).
Proof.
  destruct id as [[[a b] c] d]. split.
  - intros Hnone (Hv & Ha & Hh & Ho). revert Hnone.
    destruct (pack_H_some (29 + Z.of_nat (length opt))) as (lh & ll & El & _);
      [lia|].
    destruct (pack_B_some version Hv) as (v & Ev & _).
    destruct (pack_H_some asn Ha) as (a1 & a2 & Ea & _).
    destruct (pack_H_some hold_time Hh) as (h1 & h2 & Eh & _).
    destruct (pack_B_some (Z.of_nat (length opt))) as (o & Eo & _); [lia|].
    unfold Open.write, Open.init.
    cbn [Open.len Open.type Open.version Open.asn Open.hold_time Open.bgp_id
         Open.opt_len Open.opt].
    replace (19 + 10 + Z.of_nat (length opt))
      with (29 + Z.of_nat (length opt)) by lia.
    rewrite El, Ev, Ea, Eh, Eo, pack_L_be32.
    change (pack_B OPEN) with (Some [B 1]). discriminate.
  - intros Hout.
    destruct (Open.write (Open.init (a, b, c, d) asn hold_time opt version))
      as [bs|] eqn:E; [|reflexivity].
    exfalso. apply Hout. revert E.
    unfold Open.write, Open.init.
    cbn [Open.len Open.type Open.version Open.asn Open.hold_time Open.bgp_id
         Open.opt_len Open.opt].
    destruct (pack_H (19 + 10 + Z.of_nat (length opt))); [|discriminate].
    destruct (pack_B OPEN); [|discriminate].
    destruct (pack_B version) eqn:Ev; [|discriminate].
    destruct (pack_H asn) eqn:Ea; [|discriminate].
    destruct (pack_H hold_time) eqn:Eh; [|discriminate].
    destruct (pack_L _); [|discriminate].
    destruct (pack_B (Z.of_nat (length opt))) eqn:Eo; [|discriminate].
    intros _.
    apply pack_B_some_inv in Ev. apply pack_H_some_inv in Ea.
    apply pack_H_some_inv in Eh. apply pack_B_some_inv in Eo.
    repeat split; try tauto; lia.
Qed.

(** X3.  What [Notification.write] puts on the wire, and when it raises: it
    succeeds exactly when both codes are bytes and the Length
    [21 + len(data)] fits 16 bits; the buffer then has Length bytes, the
    marker, the Length at 16..18, Type 3, the two codes at 19 and 20 and the
    data from 21 on. *)
Theorem Notification_write_layout (error_code error_subcode : Z)
    (data : list byte) :
  (0 <= error_code < 256 /\ 0 <= error_subcode < 256
   /\ Z.of_nat (length data) <= 65514 ->
   exists bs,
     Notification.write (Notification.init error_code error_subcode data)
       = Some bs
     /\ Z.of_nat (length bs) = 21 + Z.of_nat (length data)
     /\ firstn 16 bs = repeat xff 16
     /\ be16_at bs 16 = Z.of_nat (length bs)
     /\ byte_val (nth 18 bs x00) = NOTIFICATION
     /\ byte_val (nth 19 bs x00) = error_code
     /\ byte_val (nth 20 bs x00) = error_subcode
     /\ slice_from 21 bs = data)
  /\ (Notification.write (Notification.init error_code error_subcode data)
        = None
      <-> ~ (0 <= error_code < 256 /\ 0 <= error_subcode < 256
             /\ Z.of_nat (length data) <= 65514)).
Proof.
  assert (0 <= error_code < 256 /\ 0 <= error_subcode < 256
          /\ Z.of_nat (length data) <= 65514 ->
          exists bs,
            Notification.write (Notification.init error_code error_subcode data)
              = Some bs
            /\ Z.of_nat (length bs) = 21 + Z.of_nat (length data)
            /\ firstn 16 bs = repeat xff 16
            /\ be16_at bs 16 = Z.of_nat (length bs)
            /\ byte_val (nth 18 bs x00) = NOTIFICATION
            /\ byte_val (nth 19 bs x00) = error_code
            /\ byte_val (nth 20 bs x00) = error_subcode
            /\ slice_from 21 bs = data) as Hsome.
  { intros (Hc & Hs & Hd).
    destruct (pack_H_some (21 + Z.of_nat (length data))) as (lh & ll & El & Vl);
      [lia|].
    destruct (pack_B_some error_code Hc) as (c & Ec & Vc).
    destruct (pack_B_some error_subcode Hs) as (s & Es & Vs).
    unfold Notification.write, Notification.init.
    cbn [Notification.len Notification.type Notification.error_code
         Notification.error_subcode Notification.data].
    replace (19 + 2 + Z.of_nat (length data)) with (21 + Z.of_nat (length data))
      by lia.
    rewrite El, Ec, Es. change (pack_B NOTIFICATION) with (Some [B 3]).
    cbv beta iota.
    eexists. split; [reflexivity|].
    assert (Z.of_nat (length (marker ++ ([lh; ll] ++ [B 3]) ++ ([c] ++ [s])
                              ++ data)) = 21 + Z.of_nat (length data)) as Hsize.
    { rewrite !length_app. cbn [length marker repeat]. lia. }
    split; [exact Hsize|].
    split; [reflexivity|].
    split; [rewrite Hsize; exact Vl|].
    split; [reflexivity|].
    split; [exact Vc|].
    split; [exact Vs | reflexivity]. }
  split; [exact Hsome|]. split.
  - intros Hnone Hin. destruct (Hsome Hin) as (bs & Hw & _). congruence.
  - intros Hout.
    destruct (Notification.write (Notification.init error_code error_subcode data))
      as [bs|] eqn:E; [|reflexivity].
    exfalso. apply Hout. revert E.
    unfold Notification.write, Notification.init.
    cbn [Notification.len Notification.type Notification.error_code
         Notification.error_subcode Notification.data].
    destruct (pack_H (19 + 2 + Z.of_nat (length data))) eqn:El; [|discriminate].
    destruct (pack_B NOTIFICATION); [|discriminate].
    destruct (pack_B error_code) eqn:Ec; [|discriminate].
    destruct (pack_B error_subcode) eqn:Es; [|discriminate].
    intros _.
    apply pack_H_some_inv in El. apply pack_B_some_inv in Ec.
    apply pack_B_some_inv in Es.
    repeat split; try tauto; lia.
Qed.

(** ** The decoder on arbitrary buffers *)

(** With a valid header and at least Length bytes, the decoder hands the
    buffer to the branch of its Type. *)
Lemma decode_dispatch (data : list byte) (local_id : string) (peer_asn : Z) :
  (19 <= length data)%nat ->
  marker_bad data = false ->
  19 <= be16_at data 16 <= 4096 ->
  be16_at data 16 <= Z.of_nat (length data) ->
  known_type (byte_val (nth 18 data x00)) = true ->
  DecodeMessage_init data local_id peer_asn
  = let len := be16_at data 16 in
    let type := byte_val (nth 18 data x00) in
    let self := set_header len type (fresh_message (Z.of_nat (length data))) in
    if type =? OPEN then decode_open data len local_id peer_asn self
    else if type =? UPDATE then decode_update data self
    else if type =? NOTIFICATION then decode_notification data len self
    else Ok self.
Proof.
  intros Hlen Hm Hrange Hcomplete Hknown.
  rewrite (DecodeMessage_init_valid_marker data local_id peer_asn Hlen Hm).
  cbv zeta.
  replace ((be16_at data 16 <? 19) || (4096 <? be16_at data 16)) with false
    by (symmetry; apply orb_false_iff; split; apply Z.ltb_ge; lia).
  rewrite Hknown. cbn [negb].
  replace (Z.of_nat (length data) <? be16_at data 16) with false
    by (symmetry; apply Z.ltb_ge; lia).
  reflexivity.
Qed.

(** X4.  Partial frames.  A buffer of fewer than 19 bytes, the empty one
    included, and a buffer with a valid header that holds fewer bytes than
    its Length announces, are reported through [data_length_error] with the
    number of bytes expected, 19 or the Length; no error code is set, nothing
    is raised and no body is read. *)
Theorem decode_partial_frame (data : list byte) (local_id : string)
    (peer_asn : Z) :
  ((length data < 19)%nat ->
   DecodeMessage_init data local_id peer_asn
   = Ok (set_data_length_error 19 (fresh_message (Z.of_nat (length data)))))
  /\ ((19 <= length data)%nat ->
      marker_bad data = false ->
      19 <= be16_at data 16 <= 4096 ->
      known_type (byte_val (nth 18 data x00)) = true ->
      Z.of_nat (length data) < be16_at data 16 ->
      DecodeMessage_init data local_id peer_asn
      = Ok (set_data_length_error (be16_at data 16)
              (set_header (be16_at data 16) (byte_val (nth 18 data x00))
                 (fresh_message (Z.of_nat (length data)))))).
Proof.
  split.
  - intros Hshort. unfold DecodeMessage_init.
    replace (Z.of_nat (length data) <? 19) with true
      by (symmetry; apply Z.ltb_lt; lia).
    reflexivity.
  - intros Hlen Hm Hrange Hknown Hpartial.
    rewrite (DecodeMessage_init_valid_marker data local_id peer_asn Hlen Hm).
    cbv zeta.
    replace ((be16_at data 16 <? 19) || (4096 <? be16_at data 16)) with false
      by (symmetry; apply orb_false_iff; split; apply Z.ltb_ge; lia).
    rewrite Hknown. cbn [negb].
    replace (Z.of_nat (length data) <? be16_at data 16) with true
      by (symmetry; apply Z.ltb_lt; lia).
    reflexivity.
Qed.

Lemma decode_partial_frame_witness :
  DecodeMessage_init [] "1.1.1.1" 65001
    = Ok (set_data_length_error 19 (fresh_message 0))
  /\ DecodeMessage_init open_wire_cut "1.1.1.1" 65001
     = Ok (set_data_length_error 31 (set_header 31 1 (fresh_message 22))).
Proof.
  split.
  - apply (proj1 (decode_partial_frame [] "1.1.1.1" 65001)). cbn. lia.
  - apply (proj2 (decode_partial_frame open_wire_cut "1.1.1.1" 65001)).
    + cbn. lia.
    + reflexivity.
    + vm_compute. split; discriminate.
    + reflexivity.
    + vm_compute. reflexivity.
Defined.

(** X5.  A message of Type 4 needs no particular Length: any complete buffer
    with a valid header of Type KEEPALIVE, whatever Length in 19..4096 it
    announces and whatever follows the header, is accepted with no error and
    no body. *)
Theorem decode_keepalive_any_length (data : list byte) (local_id : string)
    (peer_asn : Z) :
  (19 <= length data)%nat ->
  marker_bad data = false ->
  19 <= be16_at data 16 <= 4096 ->
  be16_at data 16 <= Z.of_nat (length data) ->
  byte_val (nth 18 data x00) = KEEPALIVE ->
  DecodeMessage_init data local_id peer_asn
  = Ok (set_header (be16_at data 16) KEEPALIVE
          (fresh_message (Z.of_nat (length data)))).
Proof.
  intros Hlen Hm Hrange Hcomplete Hty.
  rewrite decode_dispatch by (try assumption; rewrite Hty; reflexivity).
  cbv zeta. rewrite Hty. reflexivity.
Qed.

Lemma decode_keepalive_any_length_witness :
  DecodeMessage_init keepalive_wire_23 "1.1.1.1" 65001
  = Ok (set_header 23 KEEPALIVE (fresh_message 23)).
Proof.
  apply (decode_keepalive_any_length keepalive_wire_23 "1.1.1.1" 65001).
  - cbn. lia.
  - reflexivity.
  - vm_compute. split; discriminate.
  - vm_compute. discriminate.
  - reflexivity.
Defined.

(** X6.  NOTIFICATION, on any buffer.  A complete message of Type 3 with Length
    19 or 20 is rejected as MESSAGE_HEADER_ERROR / BAD_MESSAGE_LENGTH with
    the Length as data; with Length at least 21 the error code is byte 19,
    the subcode byte 20 and the data bytes 21 up to Length, and bytes after
    Length are left alone. *)
Theorem decode_notification_any (data : list byte) (local_id : string)
    (peer_asn : Z) :
  (19 <= length data)%nat ->
  marker_bad data = false ->
  19 <= be16_at data 16 <= 4096 ->
  be16_at data 16 <= Z.of_nat (length data) ->
  byte_val (nth 18 data x00) = NOTIFICATION ->
  let self := set_header (be16_at data 16) NOTIFICATION
                (fresh_message (Z.of_nat (length data))) in
  DecodeMessage_init data local_id peer_asn
  = if be16_at data 16 <? 21
    then Ok (set_error_data [nth 16 data x00; nth 17 data x00]
               (set_error MESSAGE_HEADER_ERROR BAD_MESSAGE_LENGTH self))
    else Ok (set_body
               (NotificationBody (byte_val (nth 19 data x00))
                                 (byte_val (nth 20 data x00))
                                 (slice 21 (Z.to_nat (be16_at data 16)) data))
               self).
Proof.
  intros Hlen Hm Hrange Hcomplete Hty.
  rewrite decode_dispatch by (try assumption; rewrite Hty; reflexivity).
  cbv zeta. rewrite Hty.
  change (NOTIFICATION =? OPEN) with false.
  change (NOTIFICATION =? UPDATE) with false.
  change (NOTIFICATION =? NOTIFICATION) with true. cbv iota.
  unfold decode_notification. change (19 + 2) with 21.
  destruct (Z.ltb_spec (be16_at data 16) 21) as [Hs|Hl].
  - unfold be16_at at 1. rewrite pack_H_be16. reflexivity.
  - rewrite slice_seq by lia. reflexivity.
Qed.

Lemma decode_notification_any_witness :
  DecodeMessage_init notification_wire "1.1.1.1" 65001
  = Ok (set_body (NotificationBody 6 2 [B 7])
          (set_header 22 NOTIFICATION (fresh_message 23))).
Proof.
  refine (decode_notification_any notification_wire "1.1.1.1" 65001 _ _ _ _ _).
  - cbn. lia.
  - reflexivity.
  - vm_compute. split; discriminate.
  - vm_compute. discriminate.
  - reflexivity.
Defined.

Lemma length_slice (a b : nat) (data : list byte) :
  length (slice a b data) = Nat.min (b - a) (length data - a).
Proof.
  unfold slice. rewrite length_firstn, length_skipn. reflexivity.
Qed.

Lemma unpack_H_raise (s : list byte) :
  length s <> 2%nat -> unpack_H s = Raise StructError.
Proof.
  destruct s as [|a [|b [|c s]]]; cbn; intros H; try reflexivity; lia.
Qed.

(** The OPEN branch on a buffer that holds the fixed part of the body: a
    Length below 29 is rejected, a buffer of exactly 29 bytes makes
    [data[29]] raise, and otherwise the fields are read and checked. *)
Lemma decode_open_unfold (data : list byte) (local_id : string)
    (peer_asn : Z) (self : DecodeMessage) :
  (29 <= be16_at data 16 -> (29 <= length data)%nat) ->
  decode_open data (be16_at data 16) local_id peer_asn self
  = if be16_at data 16 <? 29 then
      Ok (set_error_data [nth 16 data x00; nth 17 data x00]
            (set_error MESSAGE_HEADER_ERROR BAD_MESSAGE_LENGTH self))
    else if (length data =? 29)%nat then Raise IndexError
    else
      let version := byte_val (nth 19 data x00) in
      let asn := be16_at data 20 in
      let hold_time := be16_at data 23 in
      let id := (str_of_byte (nth 25 data x00) ++ "." ++
                 str_of_byte (nth 26 data x00) ++ "." ++
                 str_of_byte (nth 27 data x00) ++ "." ++
                 str_of_byte (nth 28 data x00))%string in
      Ok (open_checks version asn hold_time id local_id peer_asn
            (set_body (OpenBody version asn hold_time id
                                (byte_val (nth 29 data x00))
                                (slice 29 (Z.to_nat (be16_at data 16)) data))
                      self)).
Proof.
  intros Hlen. unfold decode_open. change (19 + 10) with 29.
  destruct (Z.ltb_spec (be16_at data 16) 29) as [Hs|Hl].
  - unfold be16_at at 1. rewrite pack_H_be16. reflexivity.
  - specialize (Hlen Hl).
    rewrite (index_nth data 19) by lia. cbn [bind].
    pose proof (unpack_H_slice data 20 ltac:(lia)) as Ha.
    pose proof (unpack_H_slice data 23 ltac:(lia)) as Hh.
    change (20 + 2)%nat with 22%nat in Ha.
    change (23 + 2)%nat with 25%nat in Hh.
    rewrite Ha. cbn [bind]. rewrite Hh. cbn [bind].
    assert (unpack_4s (slice 25 29 data)
            = Ok [nth 25 data x00; nth 26 data x00; nth 27 data x00;
                  nth 28 data x00]) as Hp.
    { rewrite slice_seq by lia. reflexivity. }
    rewrite Hp. cbn [bind inet_ntoa].
    destruct (Nat.eqb_spec (length data) 29) as [He|Hne].
    + unfold index. rewrite (proj2 (nth_error_None data 29)) by lia.
      reflexivity.
    + rewrite (index_nth data 29) by lia. reflexivity.
Qed.

(** The UPDATE branch: it raises struct.error when one of the two block
    lengths cannot be read, and otherwise returns what the two loops
    collect, the second one running to the end of the buffer. *)
Lemma decode_update_unfold (data : list byte) (self : DecodeMessage) :
  let n := Z.to_nat (be16_at data 19) in
  let a := Z.to_nat (be16_at data (21 + n)) in
  ((length data < 23 + n)%nat -> decode_update data self = Raise StructError)
  /\ ((23 + n <= length data)%nat ->
      exists prefixes_del prefixes_add,
        prefix_loop (slice 21 (21 + n) data) 0 = Ok prefixes_del
        /\ prefix_loop (slice_from (23 + n + a) data) 0 = Ok prefixes_add
        /\ decode_update data self
           = Ok (set_body (UpdateBody prefixes_del prefixes_add) self)).
Proof.
  cbv zeta. split.
  - intros Hshort. unfold decode_update.
    destruct (Nat.lt_ge_cases (length data) 21) as [H21|H21].
    + rewrite unpack_H_raise; [reflexivity|].
      rewrite length_slice. lia.
    + pose proof (unpack_H_slice data 19 ltac:(lia)) as Hd.
      change (19 + 2)%nat with 21%nat in Hd.
      rewrite Hd. cbn [bind].
      destruct (prefix_loop_ok
                  (slice 21 (21 + Z.to_nat (be16_at data 19)) data) 0)
        as [dels Hdels].
      rewrite Hdels. cbn [bind].
      rewrite unpack_H_raise; [reflexivity|].
      rewrite length_slice. lia.
  - intros Hfields. unfold decode_update.
    pose proof (unpack_H_slice data 19 ltac:(lia)) as Hd.
    change (19 + 2)%nat with 21%nat in Hd.
    rewrite Hd. cbn [bind].
    destruct (prefix_loop_ok
                (slice 21 (21 + Z.to_nat (be16_at data 19)) data) 0)
      as [dels Hdels].
    rewrite Hdels. cbn [bind].
    rewrite (unpack_H_slice data (21 + Z.to_nat (be16_at data 19))) by lia.
    cbn [bind].
    replace (21 + Z.to_nat (be16_at data 19) + 2)%nat
      with (23 + Z.to_nat (be16_at data 19))%nat by lia.
    destruct (prefix_loop_ok
                (slice_from (23 + Z.to_nat (be16_at data 19)
                             + Z.to_nat (be16_at data
                                           (21 + Z.to_nat (be16_at data 19))))
                            data) 0) as [adds Hadds].
    rewrite Hadds. cbn [bind].
    exists dels, adds. auto.
Qed.

(** X8.  When the decoder raises.  [DecodeMessage] raises in two situations
    only, both behind a valid header and a complete message: IndexError on
    an OPEN of Length 29 held in a buffer of exactly 29 bytes (an OPEN
    without optional parameters, alone in the buffer), and struct.error on an
    UPDATE whose buffer ends before the second of its two block lengths. *)
Theorem DecodeMessage_init_raises_iff (data : list byte) (local_id : string)
    (peer_asn : Z) (e : exn) :
  DecodeMessage_init data local_id peer_asn = Raise e
  <-> (19 <= length data)%nat
      /\ marker_bad data = false
      /\ 19 <= be16_at data 16 <= 4096
      /\ be16_at data 16 <= Z.of_nat (length data)
      /\ ((byte_val (nth 18 data x00) = OPEN
           /\ be16_at data 16 = 29
           /\ length data = 29%nat /\ e = IndexError)
          \/ (byte_val (nth 18 data x00) = UPDATE
              /\ (length data < 23 + Z.to_nat (be16_at data 19))%nat
              /\ e = StructError)).
Proof.
  split.
  - intros Hraise.
    destruct (Nat.lt_ge_cases (length data) 19) as [Hshort|Hlen].
    { unfold DecodeMessage_init in Hraise.
      replace (Z.of_nat (length data) <? 19) with true in Hraise
        by (symmetry; apply Z.ltb_lt; lia).
      discriminate. }
    destruct (marker_bad data) eqn:Hm.
    { unfold DecodeMessage_init in Hraise.
      replace (Z.of_nat (length data) <? 19) with false in Hraise
        by (symmetry; apply Z.ltb_ge; lia).
      rewrite Hm in Hraise. discriminate. }
    rewrite (DecodeMessage_init_valid_marker data local_id peer_asn Hlen Hm)
      in Hraise.
    cbv zeta in Hraise.
    destruct ((be16_at data 16 <? 19) || (4096 <? be16_at data 16)) eqn:Hb.
    { unfold be16_at at 1 in Hraise. rewrite pack_H_be16 in Hraise.
      discriminate. }
    apply orb_false_iff in Hb. destruct Hb as [Hb1 Hb2].
    apply Z.ltb_ge in Hb1. apply Z.ltb_ge in Hb2.
    destruct (known_type (byte_val (nth 18 data x00))) eqn:Hk; cbn [negb] in Hraise.
    2:{ unfold pack_B in Hraise. rewrite byte_of_val in Hraise. discriminate. }
    destruct (Z.ltb_spec (Z.of_nat (length data)) (be16_at data 16))
      as [Hpart|Hcomplete]; [discriminate|].
    split; [exact Hlen|]. split; [reflexivity|].
    split; [lia|]. split; [lia|].
    destruct (Z.eqb_spec (byte_val (nth 18 data x00)) OPEN) as [Ho|Hno].
    { left. split; [exact Ho|].
      rewrite decode_open_unfold in Hraise by lia.
      destruct (Z.ltb_spec (be16_at data 16) 29); [discriminate|].
      destruct (Nat.eqb_spec (length data) 29) as [He|Hne]; [|discriminate].
      split; [lia|]. split; [exact He|]. congruence. }
    destruct (Z.eqb_spec (byte_val (nth 18 data x00)) UPDATE) as [Hu|Hnu].
    { right. split; [exact Hu|].
      destruct (decode_update_unfold data
                  (set_header (be16_at data 16) (byte_val (nth 18 data x00))
                     {| data_length_error := false;
                        data_length_expected := 19;
                        data_length_received := Z.of_nat (length data);
                        message_error_code := 0;
                        message_error_subcode := 0;
                        message_error_data := [];
                        msg_length := None;
                        msg_type := None;
                        body := NoBody |})) as [Hr Hok].
      destruct (Nat.lt_ge_cases (length data)
                  (23 + Z.to_nat (be16_at data 19))) as [Hs|Hl].
      - split; [exact Hs|]. rewrite (Hr Hs) in Hraise. congruence.
      - destruct (Hok Hl) as (dels & adds & _ & _ & Heq).
        rewrite Heq in Hraise. discriminate. }
    destruct (Z.eqb_spec (byte_val (nth 18 data x00)) NOTIFICATION) as [Hn|Hnn];
      [|discriminate].
    unfold decode_notification in Hraise. change (19 + 2) with 21 in Hraise.
    destruct (Z.ltb_spec (be16_at data 16) 21).
    { unfold be16_at at 1 in Hraise. rewrite pack_H_be16 in Hraise.
      discriminate. }
    rewrite slice_seq in Hraise by lia. discriminate.
  - intros (Hlen & Hm & Hrange & Hcomplete & Hcase).
    destruct Hcase as [(Hty & HL & Hl & He) | (Hty & Hs & He)]; subst e.
    + rewrite decode_dispatch by (try assumption; rewrite Hty; reflexivity).
      cbv zeta. rewrite Hty. change (OPEN =? OPEN) with true. cbv iota.
      rewrite decode_open_unfold by lia.
      replace (be16_at data 16 <? 29) with false
        by (symmetry; apply Z.ltb_ge; lia).
      rewrite Hl. reflexivity.
    + rewrite decode_dispatch by (try assumption; rewrite Hty; reflexivity).
      cbv zeta. rewrite Hty.
      change (UPDATE =? OPEN) with false. change (UPDATE =? UPDATE) with true.
      cbv iota.
      exact (proj1 (decode_update_unfold data _) Hs).
Qed.

Lemma DecodeMessage_init_raises_iff_witness :
  decode_written
    (Open.write (Open.init (B 10, B 0, B 0, B 1) 65001 90 [] 4))
    "1.1.1.1" 65001 = Raise IndexError
  /\ DecodeMessage_init update_wire_19 "1.1.1.1" 65001 = Raise StructError.
Proof.
  split.
  - apply (proj2 (DecodeMessage_init_raises_iff _ "1.1.1.1" 65001 IndexError)).
    repeat split; try (vm_compute; discriminate).
    + cbn. lia.
    + left. repeat split.
  - apply (proj2 (DecodeMessage_init_raises_iff _ "1.1.1.1" 65001 StructError)).
    repeat split; try (vm_compute; discriminate).
    + cbn. lia.
    + right. repeat split. cbn. lia.
Defined.

(** X7.  An OPEN whose Length is below the 29 bytes of its fixed part is
    rejected as MESSAGE_HEADER_ERROR / BAD_MESSAGE_LENGTH with the two Length
    bytes as data; no body field is read. *)
Theorem decode_open_short_length (data : list byte) (local_id : string)
    (peer_asn : Z) :
  (19 <= length data)%nat ->
  marker_bad data = false ->
  19 <= be16_at data 16 < 29 ->
  be16_at data 16 <= Z.of_nat (length data) ->
  byte_val (nth 18 data x00) = OPEN ->
  DecodeMessage_init data local_id peer_asn
  = Ok (set_error_data [nth 16 data x00; nth 17 data x00]
          (set_error MESSAGE_HEADER_ERROR BAD_MESSAGE_LENGTH
             (set_header (be16_at data 16) OPEN
                (fresh_message (Z.of_nat (length data)))))).
Proof.
  intros Hlen Hm Hrange Hcomplete Hty.
  rewrite decode_dispatch by (try assumption; try lia; rewrite Hty; reflexivity).
  cbv zeta. rewrite Hty. change (OPEN =? OPEN) with true. cbv iota.
  rewrite decode_open_unfold by lia.
  replace (be16_at data 16 <? 29) with true by (symmetry; apply Z.ltb_lt; lia).
  reflexivity.
Qed.

Lemma decode_open_short_length_witness :
  DecodeMessage_init open_wire_25 "1.1.1.1" 65001
  = Ok (set_error_data [B 0; B 25]
          (set_error MESSAGE_HEADER_ERROR BAD_MESSAGE_LENGTH
             (set_header 25 OPEN (fresh_message 25)))).
Proof.
  apply (decode_open_short_length open_wire_25 "1.1.1.1" 65001).
  - cbn. lia.
  - reflexivity.
  - vm_compute. split; [discriminate | reflexivity].
  - vm_compute. discriminate.
  - reflexivity.
Defined.

(** X9.  What a returned message can look like.  Whenever the decoder returns:
    the received count is the size of the buffer; the pair of error code and
    subcode is one of (0,0), (1,1), (1,2), (1,3), (2,1), (2,2), (2,3), (2,6),
    so UPDATE_MESSAGE_ERROR and the later codes are never reported; a partial
    frame carries no error code; a header error carries no body; an OPEN
    error always comes with the OPEN body that caused it; and error data are
    only attached to a bad Length or a bad Type. *)
Theorem decode_result_shape (data : list byte) (local_id : string)
    (peer_asn : Z) (m : DecodeMessage) :
  DecodeMessage_init data local_id peer_asn = Ok m ->
  data_length_received m = Z.of_nat (length data)
  /\ In (message_error_code m, message_error_subcode m)
        [(0, 0); (1, 1); (1, 2); (1, 3); (2, 1); (2, 2); (2, 3); (2, 6)]
  /\ (data_length_error m = true ->
      message_error_code m = 0 /\ body m = NoBody)
  /\ (message_error_code m = MESSAGE_HEADER_ERROR -> body m = NoBody)
  /\ (message_error_code m = OPEN_MESSAGE_ERROR ->
      exists version asn hold_time id opt_len opt_param,
        body m = OpenBody version asn hold_time id opt_len opt_param)
  /\ (message_error_data m <> [] ->
      message_error_code m = MESSAGE_HEADER_ERROR
      /\ (message_error_subcode m = BAD_MESSAGE_LENGTH
          \/ message_error_subcode m = BAD_MESSAGE_TYPE)).
Proof.
  unfold DecodeMessage_init, decode_open, decode_update, decode_notification,
    open_checks, bind, or_raise.
  repeat match goal with
         | |- context [if ?c then _ else _] => destruct c
         | |- context [match ?x with Ok _ => _ | Raise _ => _ end] => destruct x
         | |- context [match ?x with Some _ => _ | None => _ end] => destruct x
         end;
    intros H; try discriminate H; inversion H; subst m; clear H;
    cbn; unfold MESSAGE_HEADER_ERROR, OPEN_MESSAGE_ERROR;
    (repeat split; try tauto; try discriminate; try congruence;
     try (intros; do 6 eexists; reflexivity)).
Qed.

Lemma decode_result_shape_witness :
  data_length_received
    (set_error_data [B 0; B 25]
       (set_error MESSAGE_HEADER_ERROR BAD_MESSAGE_LENGTH
          (set_header 25 OPEN (fresh_message 25)))) = 25
  /\ In (1, 2)
        [(0, 0); (1, 1); (1, 2); (1, 3); (2, 1); (2, 2); (2, 3); (2, 6)].
Proof.
  assert (DecodeMessage_init open_wire_25 "1.1.1.1" 65001
          = Ok (set_error_data [B 0; B 25]
                  (set_error MESSAGE_HEADER_ERROR BAD_MESSAGE_LENGTH
                     (set_header 25 OPEN (fresh_message 25))))) as Hd
    by (vm_compute; reflexivity).
  pose proof (decode_result_shape open_wire_25 "1.1.1.1" 65001 _ Hd)
    as (H1 & H2 & _).
  split; [exact H1 | exact H2].
Defined.

(** ** The prefix loops *)

(** One turn of the loop. *)
Lemma prefix_loop_step (raw : list byte) (i : nat) :
  prefix_loop raw i
  = if lt_dec i (length raw)
    then match IPv4Prefix.init (slice_from i raw) with
         | Ok prefix =>
             rest <- prefix_loop raw (i + Z.to_nat (IPv4Prefix.size prefix + 1)) ;;
             Ok (prefix :: rest)
         | Raise e => Raise e
         end
    else Ok [].
Proof.
  funelim (prefix_loop raw i).
  - rewrite Heq. reflexivity.
  - rewrite Heq.
    match goal with
    | H : IPv4Prefix.init _ = Ok _ |- _ => generalize H
    end.
    intros ->. reflexivity.
  - rewrite Heq.
    match goal with
    | H : IPv4Prefix.init _ = Raise _ |- _ => generalize H
    end.
    intros ->. reflexivity.
Qed.

(** The prefix built at index [i] of a buffer that reaches it. *)
Lemma init_at (raw : list byte) (i : nat) :
  (i < length raw)%nat ->
  IPv4Prefix.init (slice_from i raw)
  = let l := byte_val (nth i raw x00) in
    Ok {| IPv4Prefix.len := l;
          IPv4Prefix.size := IPv4Prefix.size_of l;
          IPv4Prefix.bytes :=
            firstn (Z.to_nat (IPv4Prefix.size_of l)) (skipn (S i) raw)
              ++ repeat x00 (Z.to_nat (4 - IPv4Prefix.size_of l)) |}.
Proof.
  intros Hi. unfold IPv4Prefix.init, slice_from, index.
  rewrite skipn_cons_nth by assumption. cbn [nth_error or_raise bind].
  cbv zeta. unfold slice.
  replace (1 + Z.to_nat (IPv4Prefix.size_of (byte_val (nth i raw x00))) - 1)%nat
    with (Z.to_nat (IPv4Prefix.size_of (byte_val (nth i raw x00)))) by lia.
  reflexivity.
Qed.

(** X11.  The loops always return, with at most one prefix per byte left and at
    least one when a byte is left; each prefix carries a length byte of the
    buffer, the size the source formula gives it, and at most
    [max(4, size)] address bytes. *)
Theorem prefix_loop_returns (raw : list byte) (i : nat) :
  exists prefixes,
    prefix_loop raw i = Ok prefixes
    /\ (length prefixes <= length raw - i)%nat
    /\ ((i < length raw)%nat -> prefixes <> [])
    /\ Forall (fun p =>
                 0 <= IPv4Prefix.len p <= 255
                 /\ IPv4Prefix.size p = IPv4Prefix.size_of (IPv4Prefix.len p)
                 /\ Z.of_nat (length (IPv4Prefix.bytes p))
                    <= Z.max 4 (IPv4Prefix.size p))
              prefixes.
Proof.
  remember (length raw - i)%nat as m eqn:Hm.
  revert i Hm. induction m as [m IH] using lt_wf_ind. intros i Hm.
  rewrite prefix_loop_step.
  destruct (lt_dec i (length raw)) as [Hi|Hi].
  - rewrite init_at by assumption. cbv zeta. cbn [IPv4Prefix.size].
    set (l := byte_val (nth i raw x00)).
    pose proof (byte_val_range (nth i raw x00)) as Hl. fold l in Hl.
    assert (0 <= IPv4Prefix.size_of l) as Hsz.
    { unfold IPv4Prefix.size_of, py_and.
      assert (0 <= Z.shiftr l 3) by (apply Z.shiftr_nonneg; lia).
      destruct (Z.land l 3 =? 0) eqn:E; [apply Z.eqb_eq in E|]; lia. }
    destruct (IH (length raw - (i + Z.to_nat (IPv4Prefix.size_of l + 1)))%nat
                ltac:(lia) (i + Z.to_nat (IPv4Prefix.size_of l + 1))%nat
                eq_refl) as (rest & Hrest & Hcount & _ & Hall).
    rewrite Hrest. cbn [bind].
    eexists. split; [reflexivity|]. split; [cbn [length]; lia|].
    split; [discriminate|].
    constructor; [|exact Hall].
    cbn [IPv4Prefix.len IPv4Prefix.size IPv4Prefix.bytes].
    split; [exact Hl|]. split; [reflexivity|].
    rewrite length_app, length_firstn, repeat_length. lia.
  - exists []. split; [reflexivity|]. split; [cbn; lia|].
    split; [intros; lia | constructor].
Qed.

(** The loop started at index [i] sees only the bytes from [i] on. *)
Lemma prefix_loop_shift (raw : list byte) (i : nat) :
  prefix_loop raw i = prefix_loop (skipn i raw) 0.
Proof.
  remember (length raw - i)%nat as m eqn:Hm.
  revert raw i Hm. induction m as [m IH] using lt_wf_ind. intros raw i Hm.
  rewrite (prefix_loop_step raw i), (prefix_loop_step (skipn i raw) 0).
  rewrite length_skipn.
  destruct (lt_dec i (length raw)) as [Hi|Hi];
    destruct (lt_dec 0 (length raw - i)) as [Hj|Hj]; try lia; [|reflexivity].
  unfold slice_from. cbn [skipn].
  destruct (IPv4Prefix.init (skipn i raw)) as [prefix|e] eqn:Einit;
    [|reflexivity].
  pose proof Einit as Hnn.
  change (skipn i raw) with (slice_from i raw) in Hnn.
  rewrite init_at in Hnn by assumption. cbv zeta in Hnn.
  assert (0 <= IPv4Prefix.size prefix) as Hsz.
  { inversion Hnn; subst prefix. cbn [IPv4Prefix.size].
    unfold IPv4Prefix.size_of, py_and.
    pose proof (byte_val_range (nth i raw x00)).
    assert (0 <= Z.shiftr (byte_val (nth i raw x00)) 3)
      by (apply Z.shiftr_nonneg; lia).
    destruct (Z.land (byte_val (nth i raw x00)) 3 =? 0) eqn:E;
      [apply Z.eqb_eq in E|]; lia. }
  set (k := Z.to_nat (IPv4Prefix.size prefix + 1)).
  assert (1 <= k)%nat by (unfold k; lia).
  rewrite (IH (length raw - (i + k))%nat ltac:(lia) raw (i + k)%nat eq_refl).
  rewrite (IH (length (skipn i raw) - (0 + k))%nat
              ltac:(rewrite length_skipn; lia) (skipn i raw) (0 + k)%nat eq_refl).
  rewrite skipn_skipn. replace (0 + k + i)%nat with (i + k)%nat by lia.
  reflexivity.
Qed.

(** X12.  Blocks compose.  When a length byte [l] is followed by exactly the
    number of value bytes the source formula gives it, the loop returns that
    prefix, with its value bytes and the zero padding, followed by what it
    returns on the rest of the block. *)
Theorem prefix_loop_cons (l : byte) (values rest : list byte) :
  Z.of_nat (length values) = IPv4Prefix.size_of (byte_val l) ->
  exists prefixes,
    prefix_loop rest 0 = Ok prefixes
    /\ prefix_loop (l :: values ++ rest) 0
       = Ok ({| IPv4Prefix.len := byte_val l;
                IPv4Prefix.size := IPv4Prefix.size_of (byte_val l);
                IPv4Prefix.bytes :=
                  values ++ repeat x00 (4 - length values) |}
             :: prefixes).
Proof.
  intros Hvalues.
  destruct (prefix_loop_ok rest 0) as [prefixes Hrest].
  exists prefixes. split; [exact Hrest|].
  rewrite prefix_loop_step. cbn [length].
  destruct (lt_dec 0 (S (length (values ++ rest)))) as [_|Hn]; [|lia].
  rewrite init_at by (cbn; lia). cbv zeta.
  cbn [nth skipn IPv4Prefix.size].
  rewrite <- Hvalues.
  rewrite Nat2Z.id, firstn_app, firstn_all, Nat.sub_diag. cbn [firstn].
  rewrite app_nil_r.
  replace (Z.to_nat (4 - Z.of_nat (length values)))
    with (4 - length values)%nat by lia.
  rewrite prefix_loop_shift.
  replace (0 + Z.to_nat (Z.of_nat (length values) + 1))%nat
    with (S (length values)) by lia.
  cbn [skipn]. rewrite skipn_app, skipn_all, Nat.sub_diag. cbn [skipn app].
  rewrite Hrest. reflexivity.
Qed.

Lemma prefix_loop_cons_witness :
  exists prefixes,
    prefix_loop [B 8; B 192] 0 = Ok prefixes
    /\ prefix_loop (B 24 :: [B 10; B 1; B 2] ++ [B 8; B 192]) 0
       = Ok ({| IPv4Prefix.len := 24;
                IPv4Prefix.size := 3;
                IPv4Prefix.bytes := [B 10; B 1; B 2; x00] |}
             :: prefixes).
Proof.
  apply (prefix_loop_cons (B 24) [B 10; B 1; B 2] [B 8; B 192]).
  reflexivity.
Defined.

(** ** IPv4Prefix and UPDATE *)

Lemma size_of_le_4 (l : byte) :
  byte_val l <= 32 -> 0 <= IPv4Prefix.size_of (byte_val l) <= 4.
Proof.
  destruct l; vm_compute; intros H;
    try (exfalso; apply H; reflexivity); split; discriminate.
Qed.

(** X13.  An empty buffer makes [IPv4Prefix] raise IndexError.  A length byte of
    at most 32 followed by at least [size] bytes gives a prefix with exactly
    four address bytes: the first [size] bytes that follow, then zeros. *)
Theorem IPv4Prefix_init_four_bytes (l : byte) (values : list byte) :
  IPv4Prefix.init [] = Raise IndexError
  /\ (byte_val l <= 32 ->
      IPv4Prefix.size_of (byte_val l) <= Z.of_nat (length values) ->
      exists p,
        IPv4Prefix.init (l :: values) = Ok p
        /\ IPv4Prefix.len p = byte_val l
        /\ length (IPv4Prefix.bytes p) = 4%nat
        /\ IPv4Prefix.bytes p
           = firstn (Z.to_nat (IPv4Prefix.size p)) values
               ++ repeat x00 (4 - Z.to_nat (IPv4Prefix.size p))).
Proof.
  split; [reflexivity|].
  intros Hl Hvalues. pose proof (size_of_le_4 l Hl) as Hsz.
  pose proof (init_at (l :: values) 0 ltac:(cbn; lia)) as Hinit.
  cbv zeta in Hinit. cbn [slice_from skipn nth] in Hinit.
  eexists. split; [exact Hinit|].
  cbn [IPv4Prefix.len IPv4Prefix.size IPv4Prefix.bytes].
  split; [reflexivity|]. split.
  - rewrite length_app, length_firstn, repeat_length. lia.
  - f_equal. f_equal. lia.
Qed.

Lemma IPv4Prefix_init_four_bytes_witness :
  exists p,
    IPv4Prefix.init (B 16 :: [B 172; B 16; B 99]) = Ok p
    /\ IPv4Prefix.len p = 16
    /\ length (IPv4Prefix.bytes p) = 4%nat.
Proof.
  destruct (proj2 (IPv4Prefix_init_four_bytes (B 16) [B 172; B 16; B 99]))
    as (p & H1 & H2 & H3 & _).
  - vm_compute. discriminate.
  - vm_compute. discriminate.
  - exists p. auto.
Defined.

(** X10.  UPDATE, on any buffer in which the two block lengths can be read.  The
    withdrawn prefixes are those the loop finds in the withdrawn block, the
    path attributes are skipped unread, and the announced prefixes are
    those the loop finds in everything after the attributes up to the end
    of the buffer, whatever the Length of the message says. *)
Theorem decode_update_any (data : list byte) (local_id : string)
    (peer_asn : Z) :
  (19 <= length data)%nat ->
  marker_bad data = false ->
  19 <= be16_at data 16 <= 4096 ->
  be16_at data 16 <= Z.of_nat (length data) ->
  byte_val (nth 18 data x00) = UPDATE ->
  let n := Z.to_nat (be16_at data 19) in
  let a := Z.to_nat (be16_at data (21 + n)) in
  (23 + n <= length data)%nat ->
  exists prefixes_del prefixes_add,
    prefix_loop (slice 21 (21 + n) data) 0 = Ok prefixes_del
    /\ prefix_loop (slice_from (23 + n + a) data) 0 = Ok prefixes_add
    /\ DecodeMessage_init data local_id peer_asn
       = Ok (set_body (UpdateBody prefixes_del prefixes_add)
               (set_header (be16_at data 16) UPDATE
                  (fresh_message (Z.of_nat (length data))))).
Proof.
  intros Hlen Hm Hrange Hcomplete Hty n a Hfields.
  rewrite decode_dispatch by (try assumption; rewrite Hty; reflexivity).
  cbv zeta. rewrite Hty.
  change (UPDATE =? OPEN) with false. change (UPDATE =? UPDATE) with true.
  cbv iota.
  destruct (proj2 (decode_update_unfold data
                     (set_header (be16_at data 16) UPDATE
                        (fresh_message (Z.of_nat (length data))))) Hfields)
    as (dels & adds & Hd & Ha & Heq).
  exists dels, adds. auto.
Qed.

Lemma decode_update_any_witness :
  exists prefixes_del prefixes_add,
    prefix_loop [] 0 = Ok prefixes_del
    /\ prefix_loop [B 8; B 10] 0 = Ok prefixes_add
    /\ DecodeMessage_init update_wire_trailing "1.1.1.1" 65001
       = Ok (set_body (UpdateBody prefixes_del prefixes_add)
               (set_header 23 UPDATE (fresh_message 25))).
Proof.
  refine (decode_update_any update_wire_trailing "1.1.1.1" 65001 _ _ _ _ _ _).
  - cbn. lia.
  - reflexivity.
  - vm_compute. split; discriminate.
  - vm_compute. discriminate.
  - reflexivity.
  - vm_compute. lia.
Defined.

(** * Further properties of the session *)

(** ** The event queue *)

Lemma chain_below_snoc (lo hi : Z) (l : list Z) :
  chain_below lo l hi -> chain_below lo (l ++ [hi + 1]) (hi + 1).
Proof.
  revert lo. induction l as [|x l IH]; intros lo; cbn.
  - lia.
  - intros [H1 H2]. split; [exact H1 | apply IH; exact H2].
Qed.

Lemma chain_below_bounds (lo hi : Z) (l : list Z) :
  chain_below lo l hi ->
  lo <= hi /\ StronglySorted Z.lt l /\ Forall (fun x => lo < x <= hi) l.
Proof.
  revert lo. induction l as [|x l IH]; intros lo; cbn.
  - intros H. split; [exact H|]. split; constructor.
  - intros [H1 H2]. destruct (IH x H2) as (Hb & Hs & Hf).
    split; [lia|]. split.
    + constructor; [exact Hs|].
      eapply Forall_impl; [|exact Hf]. cbn. intros; lia.
    + constructor; [lia|].
      eapply Forall_impl; [|exact Hf]. cbn. intros; lia.
Qed.

(** For an object that is not in the queue, the by-value [enqueue_event]
    and the one on references leave the same events in the queue and the
    same counter. *)
Lemma enqueue_event_by_value (event : nat) (world : Aliased.t)
    (self : BgpFsm) :
  ~ In event (Aliased.event_queue world) ->
  Aliased.queued world = event_queue self ->
  Aliased.event_serial_number world = event_serial_number self ->
  Aliased.queued (Aliased.enqueue_event event world)
    = event_queue (enqueue_event (Aliased.objects world event) self)
  /\ Aliased.event_serial_number (Aliased.enqueue_event event world)
     = event_serial_number (enqueue_event (Aliased.objects world event) self).
Proof.
  intros Hfresh Hq Hc. unfold Aliased.queued in *.
  unfold Aliased.enqueue_event, enqueue_event.
  cbn [Aliased.objects Aliased.event_queue Aliased.event_serial_number name
       serial_number event_serial_number set_event_serial_number].
  rewrite Nat.eqb_refl. cbn [name]. rewrite Hc.
  destruct (str_in (name (Aliased.objects world event)) _);
    cbn [event_queue set_event_queue event_serial_number
         set_event_serial_number app map];
    rewrite ?map_app; cbn [map]; rewrite ?Nat.eqb_refl;
    (split; [|reflexivity]); [reflexivity|].
  f_equal. rewrite <- Hq. apply map_ext_in.
  intros ref Hin. destruct (Nat.eqb_spec ref event) as [->|_];
    [contradiction | reflexivity].
Qed.

Lemma run_op_chain (self : Aliased.t) (o : Aliased.op) :
  match o with
  | Aliased.Enqueue event => ~ In event (Aliased.event_queue self)
  | Aliased.Dequeue => True
  end ->
  chain_below 0 (map serial_number (Aliased.queued self))
              (Aliased.event_serial_number self) ->
  chain_below 0 (map serial_number (Aliased.queued (Aliased.run_op self o)))
              (Aliased.event_serial_number (Aliased.run_op self o))
  /\ Aliased.event_serial_number (Aliased.run_op self o)
     = Aliased.event_serial_number self
       + match o with Aliased.Enqueue _ => 1 | Aliased.Dequeue => 0 end.
Proof.
  intros Hfresh Hc. destruct o as [event|].
  - unfold Aliased.run_op, Aliased.enqueue_event, Aliased.queued in *.
    cbn [Aliased.objects Aliased.event_queue Aliased.event_serial_number].
    split; [|reflexivity].
    rewrite Nat.eqb_refl. cbn [name].
    destruct (str_in (name (Aliased.objects self event)) _).
    + cbn [app map serial_number]. rewrite Nat.eqb_refl.
      cbn [serial_number chain_below].
      apply chain_below_bounds in Hc. lia.
    + rewrite !map_app. cbn [map]. rewrite Nat.eqb_refl. cbn [serial_number].
      replace (map serial_number
                 (map (fun ref =>
                         if Nat.eqb ref event
                         then {| name := name (Aliased.objects self event);
                                 serial_number :=
                                   Aliased.event_serial_number self + 1 |}
                         else Aliased.objects self ref)
                      (Aliased.event_queue self)))
        with (map serial_number
                (map (Aliased.objects self) (Aliased.event_queue self))).
      * apply chain_below_snoc. exact Hc.
      * f_equal. apply map_ext_in. intros ref Hin.
        destruct (Nat.eqb_spec ref event) as [->|_];
          [contradiction | reflexivity].
  - unfold Aliased.run_op, Aliased.dequeue_event, Aliased.queued in *.
    destruct (Aliased.event_queue self) as [|first rest] eqn:Eq.
    + rewrite Eq. split; [exact Hc | lia].
    + cbn in *. split; [|lia]. destruct Hc as [H1 H2].
      destruct rest as [|second rest]; cbn in *; [lia|].
      split; [lia | tauto].
Qed.

(** X15.  Serial numbers in the queue.  [enqueue_event] writes the serial
    into the object it is given and queues that object itself.  After any
    run of [enqueue_event] and [dequeue_event] calls on a new session in
    which no object is enqueued while it is still in the queue, the counter
    equals the number of events enqueued, the serial numbers of the queued
    events are strictly increasing from the head, and each lies between 1 and
    the counter.  Without that condition this fails: an object enqueued
    twice in a row is in the queue twice, both times with the second
    serial. *)
Theorem queue_serials_increasing (ops : list Aliased.op)
    (objects : nat -> Event) :
  (Aliased.fresh ops (Aliased.init objects) ->
   let self := Aliased.run ops (Aliased.init objects) in
   Aliased.event_serial_number self = Z.of_nat (Aliased.enqueue_count ops)
   /\ StronglySorted Z.lt (map serial_number (Aliased.queued self))
   /\ Forall (fun event =>
                1 <= serial_number event <= Aliased.event_serial_number self)
             (Aliased.queued self))
  /\ (forall event : nat,
         str_in (name (objects event))
                ["Event 2: ManualStop"; "Event 8: AutomaticStop"]%string
           = false ->
         Aliased.queued
           (Aliased.run [Aliased.Enqueue event; Aliased.Enqueue event]
                        (Aliased.init objects))
         = [{| name := name (objects event); serial_number := 2 |};
            {| name := name (objects event); serial_number := 2 |}]).
Proof.
  split.
  - cbv zeta.
    assert (forall ops self,
               Aliased.fresh ops self ->
               chain_below 0 (map serial_number (Aliased.queued self))
                           (Aliased.event_serial_number self) ->
               chain_below 0
                 (map serial_number (Aliased.queued (Aliased.run ops self)))
                 (Aliased.event_serial_number (Aliased.run ops self))
               /\ Aliased.event_serial_number (Aliased.run ops self)
                  = Aliased.event_serial_number self
                    + Z.of_nat (Aliased.enqueue_count ops))
      as Hrun.
    { clear. induction ops as [|o ops IH]; intros self Hfresh Hc.
      - cbn. split; [exact Hc | lia].
      - cbn [Aliased.fresh] in Hfresh. destruct Hfresh as [Ho Hrest].
        destruct (run_op_chain self o Ho Hc) as [Hc' He].
        destruct (IH (Aliased.run_op self o) Hrest Hc') as [Hc'' He'].
        unfold Aliased.run in *. cbn [fold_left].
        split; [exact Hc''|]. rewrite He', He.
        unfold Aliased.enqueue_count. destruct o; cbn [filter length]; lia. }
    intros Hfresh.
    destruct (Hrun ops (Aliased.init objects) Hfresh) as [Hc He].
    { cbn. lia. }
    split; [rewrite He; cbn; lia|].
    apply chain_below_bounds in Hc. destruct Hc as (_ & Hs & Hf).
    split; [exact Hs|].
    apply Forall_map in Hf. eapply Forall_impl; [|exact Hf].
    cbn. intros; lia.
  - intros event Hname.
    unfold Aliased.run, Aliased.queued. cbn [fold_left Aliased.run_op].
    unfold Aliased.enqueue_event, Aliased.init.
    cbn [Aliased.objects Aliased.event_queue Aliased.event_serial_number].
    rewrite !Nat.eqb_refl. cbn [name]. rewrite Hname.
    cbn [app map]. rewrite !Nat.eqb_refl. cbn [name]. reflexivity.
Qed.

Lemma queue_serials_increasing_witness :
  let objects := fun ref : nat =>
                   {| name := "Event 26: KeepAliveMsg"; serial_number := 0 |} in
  Aliased.queued
    (Aliased.run [Aliased.Enqueue 0%nat; Aliased.Enqueue 1%nat;
                  Aliased.Dequeue; Aliased.Enqueue 0%nat]
                 (Aliased.init objects))
  = [{| name := "Event 26: KeepAliveMsg"; serial_number := 2 |};
     {| name := "Event 26: KeepAliveMsg"; serial_number := 3 |}]
  /\ StronglySorted Z.lt [2; 3].
Proof.
  cbv zeta. split; [reflexivity|].
  refine (proj1 (proj2 (proj1 (queue_serials_increasing
            [Aliased.Enqueue 0%nat; Aliased.Enqueue 1%nat;
             Aliased.Dequeue; Aliased.Enqueue 0%nat]
            (fun ref : nat =>
               {| name := "Event 26: KeepAliveMsg"; serial_number := 0 |}))
          _))).
  cbn. repeat split; intros H;
    repeat (destruct H as [H|H]; [discriminate H|]); exact H.
Defined.



(** ** change_state *)

Lemma str_in_true_iff (x : string) (l : list string) :
  str_in x l = true <-> In x l.
Proof.
  unfold str_in. rewrite existsb_exists. split.
  - intros (y & Hin & Heq). apply String.eqb_eq in Heq. subst. exact Hin.
  - intros Hin. exists x. split; [exact Hin | apply String.eqb_refl].
Qed.

Lemma str_in_false (x : string) (l : list string) :
  ~ In x l -> str_in x l = false.
Proof.
  intros Hn. destruct (str_in x l) eqn:E; [|reflexivity].
  apply str_in_true_iff in E. contradiction.
Qed.

(** X17.  A change to one of the five states other than Idle writes the state and
    nothing else: the timers keep running and the connection stays as it is.
    A name that is not one of the six states fails the assertion, and the
    session is left untouched. *)
Theorem change_state_other (st : string) (self : BgpFsm) :
  (In st ["Connect"; "Active"; "OpenSent"; "OpenConfirm"; "Established"]%string ->
   change_state st self = Done tt (set_state st self))
  /\ (~ In st fsm_states ->
      change_state st self = Raised AssertionError self).
Proof.
  split.
  - intros Hin. cbn in Hin.
    repeat (destruct Hin as [<-|Hin]; [reflexivity|]). contradiction.
  - intros Hout. unfold change_state, mbind.
    change ["Idle"; "Connect"; "Active"; "OpenSent"; "OpenConfirm";
            "Established"]%string with fsm_states.
    rewrite (str_in_false st fsm_states Hout). reflexivity.
Qed.

Lemma change_state_other_witness :
  change_state "OpenSent" established_session
    = Done tt (set_state "OpenSent" established_session)
  /\ change_state "Closed" established_session
     = Raised AssertionError established_session.
Proof.
  split.
  - apply (proj1 (change_state_other "OpenSent" established_session)).
    cbn. tauto.
  - apply (proj2 (change_state_other "Closed" established_session)).
    cbn. intros H.
    repeat (destruct H as [H|H]; [discriminate H|]). exact H.
Defined.

(** ** fsm_established *)

(** X18.  The teardown rows.  On ManualStop, AutomaticStop and HoldTimer_Expires
    a NOTIFICATION (Cease, Cease, Hold Timer Expired) is sent first; on
    TcpConnectionFails, NotifMsgVerErr, NotifMsg and UpdateMsgErr nothing is
    sent.  ManualStop sets the connect retry counter to zero, the others add
    one to it; all of them end in Idle with the three timers and the peer
    port at zero and the connection closed. *)
Theorem fsm_established_teardown :
  Forall (fun row : string * list OutMsg * (Z -> Z) =>
            let '(n, msgs, counter) := row in
            forall (sn : Z) (self : BgpFsm),
              fsm_established {| name := n; serial_number := sn |} self
              = Done tt
                  (idle_reset
                     (set_connect_retry_counter
                        (counter (connect_retry_counter self))
                        (set_sent (sent self ++ msgs) self))))
         established_teardown_rows.
Proof.
  unfold established_teardown_rows.
  repeat constructor; intros sn self; cbn [app];
    rewrite ?app_nil_r; try reflexivity.
  all: unfold fsm_established, idle_reset; cbn;
    rewrite ?app_nil_r; destruct self; reflexivity.
Qed.

(** X19.  What [fsm_established] can and cannot do, for every event and session.
    An event whose name is none of those the handler tests for is ignored:
    the session is returned as it was.  Otherwise the handler either raises
    AttributeError on the untouched session, which happens for the six FSM
    error events only, or completes; when it completes it has sent at most
    one message, has left the configuration, the options, the event queue,
    the serial counter, the peer identifier and the three base times alone,
    and has either kept the state or moved to Idle with the three timers and
    the peer port at zero and the connection closed. *)
Theorem fsm_established_outcomes (event : Event) (self : BgpFsm) :
  (~ In (name event) fsm_established_events ->
   fsm_established event self = Done tt self)
  /\ ((fsm_established event self = Raised AttributeError self
       /\ In (name event) fsm_error_events)
      \/ exists self' msgs,
           fsm_established event self = Done tt self'
           /\ sent self' = sent self ++ msgs
           /\ (length msgs <= 1)%nat
           /\ config self' = config self
           /\ options self' = options self
           /\ event_queue self' = event_queue self
           /\ event_serial_number self' = event_serial_number self
           /\ peer_id self' = peer_id self
           /\ hold_time self' = hold_time self
           /\ keepalive_time self' = keepalive_time self
           /\ connect_retry_time self' = connect_retry_time self
           /\ (state self' = state self
               \/ (state self' = "Idle"%string
                   /\ connect_retry_timer self' = 0
                   /\ keepalive_timer self' = 0
                   /\ hold_timer self' = 0
                   /\ peer_port self' = 0
                   /\ tcp_connection_established self' = false))).
Proof.
  assert (~ In (name event) fsm_established_events ->
          fsm_established event self = Done tt self) as Hignored.
  { intros Hout. apply str_in_false in Hout.
    unfold str_in, fsm_established_events in Hout. cbn [existsb] in Hout.
    repeat (apply orb_false_iff in Hout; destruct Hout as [? Hout]).
    unfold fsm_established, str_in. cbn [existsb].
    repeat match goal with
           | H : String.eqb _ _ = false |- _ => rewrite H; clear H
           end.
    reflexivity. }
  split; [exact Hignored|].
  destruct (in_dec string_dec (name event) fsm_established_events)
    as [Hin|Hout].
  - destruct event as [n sn]. cbn [name] in *.
    unfold fsm_established_events in Hin. cbn [In] in Hin.
    repeat (destruct Hin as [<-|Hin];
            [first
               [ left; split; [reflexivity | cbn; tauto]
               | right; eexists; exists [];
                 split; [reflexivity|]; rewrite app_nil_r;
                 cbn; repeat split; auto; right; repeat split; reflexivity
               | right; eexists; eexists;
                 split; [reflexivity|]; cbn;
                 split; [reflexivity|]; cbn; repeat split; auto;
                 right; repeat split; reflexivity ]|]).
    contradiction.
  - right. exists self, []. rewrite app_nil_r.
    split; [exact (Hignored Hout)|]. cbn. repeat split; auto.
Qed.

Lemma fsm_established_outcomes_witness :
  fsm_established {| name := "Event 19: BGPOpen"; serial_number := 3 |}
                  established_session
  = Done tt established_session.
Proof.
  apply (proj1 (fsm_established_outcomes
                  {| name := "Event 19: BGPOpen"; serial_number := 3 |}
                  established_session)).
  cbn. intros H.
  repeat (destruct H as [H|H]; [discriminate H|]). exact H.
Defined.

(** ** The loop *)

(** X20.  In Established the chain dispatches once: whatever the other five
    handlers are, one turn of the loop takes the event at the head of the
    queue and runs [fsm_established] on it, on the session without that
    event, and no other handler. *)
Theorem fsm_turn_established
    (fsm_idle fsm_connect fsm_active fsm_opensent fsm_openconfirm
       : Event -> M unit)
    (event : Event) (rest : list Event) (self : BgpFsm) :
  state self = "Established"%string ->
  event_queue self = event :: rest ->
  fsm_turn fsm_idle fsm_connect fsm_active fsm_opensent fsm_openconfirm self
  = match fsm_established event (set_event_queue rest self) with
    | Done _ self' => Done ["Established"%string] self'
    | Raised e self' => Raised e self'
    end.
Proof.
  intros Hstate Hqueue.
  destruct self. cbn in Hstate, Hqueue. subst.
  unfold fsm_turn, fsm_dispatch, dispatch_if, dequeue_event, mbind, get, ret.
  with_strategy opaque [fsm_established] cbn.
  match goal with
  | |- context [fsm_established event ?s] => destruct (fsm_established event s)
  end; reflexivity.
Qed.

Lemma fsm_turn_established_witness :
  exists self',
    fsm_turn fsm_openconfirm_spec fsm_openconfirm_spec fsm_openconfirm_spec
      fsm_openconfirm_spec fsm_openconfirm_spec
      (set_event_queue
         [{| name := "Event 10: HoldTimer_Expires"; serial_number := 8 |}]
         established_session)
    = Done ["Established"%string] self'
    /\ state self' = "Idle"%string
    /\ connect_retry_counter self' = 1
    /\ sent self' = [OutOpen; OutKeepalive; OutNotification HOLD_TIMER_EXPIRED].
Proof.
  eexists. split.
  - rewrite (fsm_turn_established fsm_openconfirm_spec fsm_openconfirm_spec
               fsm_openconfirm_spec fsm_openconfirm_spec fsm_openconfirm_spec
               {| name := "Event 10: HoldTimer_Expires"; serial_number := 8 |}
               []
               (set_event_queue
                  [{| name := "Event 10: HoldTimer_Expires";
                      serial_number := 8 |}] established_session)
               eq_refl eq_refl).
    reflexivity.
  - repeat split.
Defined.

(** X21.  A stop order overtakes the queue.  In Established, whatever is queued,
    enqueuing ManualStop and running one turn of the loop handles that
    event: a NOTIFICATION with Cease is sent, the connect retry counter is
    zero, the state is Idle with the timers and the peer port at zero and the
    connection closed, and the queue is empty. *)
Theorem manual_stop_overtakes
    (fsm_idle fsm_connect fsm_active fsm_opensent fsm_openconfirm
       : Event -> M unit)
    (sn : Z) (self : BgpFsm) :
  state self = "Established"%string ->
  fsm_turn fsm_idle fsm_connect fsm_active fsm_opensent fsm_openconfirm
    (enqueue_event {| name := "Event 2: ManualStop"; serial_number := sn |}
                   self)
  = Done ["Established"%string]
      (idle_reset
         (set_connect_retry_counter 0
            (set_sent (sent self ++ [OutNotification CEASE])
               (set_event_queue []
                  (set_event_serial_number (event_serial_number self + 1)
                                           self))))).
Proof.
  intros Hstate. destruct self. cbn in Hstate. subst. reflexivity.
Qed.

Lemma manual_stop_overtakes_witness :
  exists self',
    fsm_turn fsm_openconfirm_spec fsm_openconfirm_spec fsm_openconfirm_spec
      fsm_openconfirm_spec fsm_openconfirm_spec
      (enqueue_event {| name := "Event 2: ManualStop"; serial_number := 0 |}
         (set_event_queue
            [{| name := "Event 27: UpdateMsg"; serial_number := 6 |};
             {| name := "Event 11: KeepaliveTimer_Expires"; serial_number := 7 |}]
            established_session))
    = Done ["Established"%string] self'
    /\ state self' = "Idle"%string
    /\ event_queue self' = []
    /\ connect_retry_counter self' = 0.
Proof.
  eexists. split.
  - apply (manual_stop_overtakes fsm_openconfirm_spec fsm_openconfirm_spec
             fsm_openconfirm_spec fsm_openconfirm_spec fsm_openconfirm_spec 0).
    reflexivity.
  - repeat split.
Defined.

(** X22.  When the chain of [if] statements agrees with a dispatch on the state
    at dequeue time.  If the single dispatch raises, so does the chain.  If
    the single dispatch completes and the session is not left in a state
    that the loop tests after the one it started in, the chain runs that
    handler and no other.  This covers every turn that keeps the state or
    goes back to Idle, every turn started in Established, and a session in
    an unknown state, for which neither runs a handler. *)
Theorem fsm_dispatch_agrees
    (fsm_idle fsm_connect fsm_active fsm_opensent fsm_openconfirm
       : Event -> M unit)
    (event : Event) (self : BgpFsm) :
  (forall e self',
      fsm_dispatch_single fsm_idle fsm_connect fsm_active fsm_opensent
                          fsm_openconfirm event self = Raised e self' ->
      fsm_dispatch fsm_idle fsm_connect fsm_active fsm_opensent
                   fsm_openconfirm event self = Raised e self')
  /\ (forall ran self',
         fsm_dispatch_single fsm_idle fsm_connect fsm_active fsm_opensent
                             fsm_openconfirm event self = Done ran self' ->
         ~ In (state self') (later_states (state self)) ->
         fsm_dispatch fsm_idle fsm_connect fsm_active fsm_opensent
                      fsm_openconfirm event self = Done ran self').
Proof.
  unfold fsm_dispatch, fsm_dispatch_single, dispatch_if, mbind, get, ret,
    later_states, fsm_states.
  destruct (String.eqb_spec (state self) "Idle") as [E|N1].
  { rewrite E. cbn.
    destruct (fsm_idle event self) as [[] s1|e s1]; split;
      intros ? ? H; inversion H; subst; clear H; try reflexivity.
    intros Hn. cbn in Hn.
    repeat match goal with
           | |- context [String.eqb (state ?s) ?x] =>
               destruct (String.eqb_spec (state s) x) as [Heq|_];
               [exfalso; apply Hn; rewrite Heq; tauto|]
           end.
    reflexivity. }
  destruct (String.eqb_spec (state self) "Connect") as [E|N2].
  { rewrite E. cbn.
    destruct (fsm_connect event self) as [[] s1|e s1]; split;
      intros ? ? H; inversion H; subst; clear H; try reflexivity.
    intros Hn. cbn in Hn.
    repeat match goal with
           | |- context [String.eqb (state ?s) ?x] =>
               destruct (String.eqb_spec (state s) x) as [Heq|_];
               [exfalso; apply Hn; rewrite Heq; tauto|]
           end.
    reflexivity. }
  destruct (String.eqb_spec (state self) "Active") as [E|N3].
  { rewrite E. cbn.
    destruct (fsm_active event self) as [[] s1|e s1]; split;
      intros ? ? H; inversion H; subst; clear H; try reflexivity.
    intros Hn. cbn in Hn.
    repeat match goal with
           | |- context [String.eqb (state ?s) ?x] =>
               destruct (String.eqb_spec (state s) x) as [Heq|_];
               [exfalso; apply Hn; rewrite Heq; tauto|]
           end.
    reflexivity. }
  destruct (String.eqb_spec (state self) "OpenSent") as [E|N4].
  { rewrite E. cbn.
    destruct (fsm_opensent event self) as [[] s1|e s1]; split;
      intros ? ? H; inversion H; subst; clear H; try reflexivity.
    intros Hn. cbn in Hn.
    repeat match goal with
           | |- context [String.eqb (state ?s) ?x] =>
               destruct (String.eqb_spec (state s) x) as [Heq|_];
               [exfalso; apply Hn; rewrite Heq; tauto|]
           end.
    reflexivity. }
  destruct (String.eqb_spec (state self) "OpenConfirm") as [E|N5].
  { rewrite E. cbn.
    destruct (fsm_openconfirm event self) as [[] s1|e s1]; split;
      intros ? ? H; inversion H; subst; clear H; try reflexivity.
    intros Hn. cbn in Hn.
    repeat match goal with
           | |- context [String.eqb (state ?s) ?x] =>
               destruct (String.eqb_spec (state s) x) as [Heq|_];
               [exfalso; apply Hn; rewrite Heq; tauto|]
           end.
    reflexivity. }
  destruct (String.eqb_spec (state self) "Established") as [E|N6].
  { rewrite E. cbn.
    destruct (fsm_established event self) as [[] s1|e s1]; split;
      intros ? ? H; inversion H; subst; clear H; reflexivity. }
  split; intros ? ? H; inversion H; subst; reflexivity.
Qed.

Lemma fsm_dispatch_agrees_witness :
  fsm_dispatch fsm_openconfirm_spec fsm_openconfirm_spec fsm_openconfirm_spec
    fsm_openconfirm_spec fsm_openconfirm_spec
    {| name := "Event 11: KeepaliveTimer_Expires"; serial_number := 4 |}
    (set_state "OpenConfirm" established_session)
  = Done ["OpenConfirm"%string]
      (set_keepalive_timer 20
         (set_sent [OutOpen; OutKeepalive; OutKeepalive]
            (set_state "OpenConfirm" established_session))).
Proof.
  apply (proj2 (fsm_dispatch_agrees fsm_openconfirm_spec fsm_openconfirm_spec
                  fsm_openconfirm_spec fsm_openconfirm_spec
                  fsm_openconfirm_spec
                  {| name := "Event 11: KeepaliveTimer_Expires";
                     serial_number := 4 |}
                  (set_state "OpenConfirm" established_session))).
  - reflexivity.
  - cbn. intros [H|H]; [discriminate H | exact H].
Defined.

(** Witnesses at concrete inputs. *)

Lemma size_of_vs_ceil_witness :
  IPv4Prefix.size_of (byte_val (B 24)) = (byte_val (B 24) + 7) / 8.
Proof.
  apply (proj2 (size_of_vs_ceil (B 24))). vm_compute. discriminate.
Defined.

Lemma Open_write_raises_iff_witness :
  Open.write (Open.init (B 10, B 0, B 0, B 1) 65536 90 [] 4) = None.
Proof.
  apply (proj2 (Open_write_raises_iff (B 10, B 0, B 0, B 1) 65536 90 4 [])).
  intros (_ & H & _). lia.
Defined.

Lemma Notification_write_layout_witness :
  exists bs,
    Notification.write (Notification.init 6 2 [B 7]) = Some bs
    /\ Z.of_nat (length bs) = 22
    /\ byte_val (nth 19 bs x00) = 6
    /\ byte_val (nth 20 bs x00) = 2.
Proof.
  destruct (proj1 (Notification_write_layout 6 2 [B 7]))
    as (bs & Hw & Hl & _ & _ & _ & Hc & Hs & _).
  - cbn. lia.
  - exists bs. auto.
Defined.

Lemma prefix_loop_returns_witness :
  exists prefixes,
    prefix_loop [B 32] 0 = Ok prefixes
    /\ (length prefixes <= 1)%nat
    /\ prefixes <> [].
Proof.
  destruct (prefix_loop_returns [B 32] 0) as (prefixes & H1 & H2 & H3 & _).
  exists prefixes. split; [exact H1|]. split; [exact H2|].
  apply H3. cbn. lia.
Defined.

(** X14.  The size the source gives a prefix of [l] bits, for every length byte:
    [l // 8] when [l] is a multiple of 4 and [l // 8 + 1] otherwise; that is
    [ceil(l / 8)], except one less when [l] is 4 modulo 8. *)
Theorem prefix_size_formula (l : byte) :
  IPv4Prefix.size_of (byte_val l)
  = byte_val l / 8 + (if byte_val l mod 4 =? 0 then 0 else 1)
  /\ IPv4Prefix.size_of (byte_val l)
     = (byte_val l + 7) / 8 - (if byte_val l mod 8 =? 4 then 1 else 0).
Proof.
  destruct l; vm_compute; split; reflexivity.
Qed.
